(** * Waste-collection pipeline: scraper, extractor, normalizer

    A shallow embedding of the Python sources
      - [website_scraper.py]  ([scrape_url_get_html]),
      - [html_to_json.py]     ([format_collection_date], [parse_to_json]),
      - [beautify_json.py]    ([beautify]),
      - [main.py]             ([main]),
    together with the properties the specification states about them.

    Modelling conventions.
    - A Python [str] is a Rocq [string] of ASCII characters, which is
      what the council page is written in; the character classes of [re]
      and of the [str] methods are the ones Python has on code points
      below 128.  Text beyond ASCII (accented letters, which Python
      counts as word characters) is outside the model.
    - An exception is a value of [exn]; code that may raise returns a
      [result].  [try]/[except] is a [match] on that result.
    - Python objects that can be shared live in a [heap]; a dictionary is
      an association list in insertion order.
    - The browser (Playwright), the HTML parser (BeautifulSoup) and the
      clock ([datetime.now()]) are the environment: they are parameters.
    - [print] only writes diagnostics and is left out. *)

From Stdlib Require Import ZArith Lia Bool List Ascii String.
From Stdlib Require Import Decimal DecimalString DecimalZ.
From Stdlib Require QArith.
From stdpp Require Import gmap strings list.

Import ListNotations.
#[local] Open Scope list_scope.
#[local] Open Scope Z_scope.

(** ** Exceptions and results *)

Inductive exn : Type :=
| PlaywrightTimeoutError
| ValueError
| ParserRejectedMarkup
| Exception.

Inductive result (A : Type) : Type :=
| Ok (a : A)
| Raise (e : exn).
Arguments Ok {A} a.
Arguments Raise {A} e.

Definition bind {A B : Type} (x : result A) (f : A -> result B) : result B :=
  match x with
  | Ok a => f a
  | Raise e => Raise e
  end.

Declare Scope result_scope.
Delimit Scope result_scope with result.
Notation "'let?' x ':=' e 'in' k" := (bind e (fun x => k))
  (at level 10, x name, e at level 100, k at level 200) : result_scope.
#[local] Open Scope result_scope.

(** ** Characters and strings, the Python way *)

Module Py.

Definition code (a : ascii) : N := N_of_ascii a.

Definition between (lo hi : N) (a : ascii) : bool :=
  ((lo <=? code a) && (code a <=? hi))%N.

(** [\d] *)
Definition is_digit (a : ascii) : bool := between 48 57 a.

Definition is_upper (a : ascii) : bool := between 65 90 a.
Definition is_lower (a : ascii) : bool := between 97 122 a.
Definition is_alpha (a : ascii) : bool := is_upper a || is_lower a.

(** [\w] : letters, digits and the underscore *)
Definition is_word (a : ascii) : bool :=
  is_alpha a || is_digit a || (code a =? 95)%N.

(** [\s] and [str.isspace]: tab, newline, vertical tab, form feed,
    carriage return, the four separators 0x1c..0x1f, and the space *)
Definition is_space (a : ascii) : bool :=
  between 9 13 a || between 28 31 a || (code a =? 32)%N.

Definition upper_char (a : ascii) : ascii :=
  if is_lower a then ascii_of_N (code a - 32) else a.
Definition lower_char (a : ascii) : ascii :=
  if is_upper a then ascii_of_N (code a + 32) else a.

Fixpoint map_chars (f : ascii -> ascii) (s : string) : string :=
  match s with
  | EmptyString => EmptyString
  | String a s' => String (f a) (map_chars f s')
  end.

(** [s.upper()], [s.lower()] *)
Definition upper (s : string) : string := map_chars upper_char s.
Definition lower (s : string) : string := map_chars lower_char s.

(** [s.title()]: a letter that follows a letter is lowered, any other
    letter is raised *)
Fixpoint title_from (prev_cased : bool) (s : string) : string :=
  match s with
  | EmptyString => EmptyString
  | String a s' =>
      String (if prev_cased then lower_char a else upper_char a)
             (title_from (is_alpha a) s')
  end.
Definition title (s : string) : string := title_from false s.

Fixpoint all_chars (c : ascii -> bool) (s : string) : bool :=
  match s with
  | EmptyString => true
  | String a s' => c a && all_chars c s'
  end.

Fixpoint lstrip (s : string) : string :=
  match s with
  | EmptyString => EmptyString
  | String a s' => if is_space a then lstrip s' else s
  end.

(** Dropping trailing white space: a character is kept when it is not a
    space or when something is kept after it. *)
Fixpoint rstrip (s : string) : string :=
  match s with
  | EmptyString => EmptyString
  | String a s' =>
      match rstrip s' with
      | EmptyString => if is_space a then EmptyString else String a EmptyString
      | t => String a t
      end
  end.

(** [s.strip()] *)
Definition strip (s : string) : string := rstrip (lstrip s).

(** [s[:n]] *)
Fixpoint take (n : nat) (s : string) : string :=
  match n, s with
  | S n', String a s' => String a (take n' s')
  | _, _ => EmptyString
  end.

(** [sub in s] *)
Fixpoint contains (sub s : string) : bool :=
  String.prefix sub s ||
  match s with
  | EmptyString => false
  | String _ s' => contains sub s'
  end.

(** [sep.join(parts)] *)
Fixpoint join (sep : string) (parts : list string) : string :=
  match parts with
  | [] => ""
  | [p] => p
  | p :: ps => p +:+ sep +:+ join sep ps
  end.

(** [str(n)] and the [{n}] of an f-string, for an [int] *)
Definition str (n : Z) : string := NilZero.string_of_int (Z.to_int n).

(** [int(s)] for a run of decimal digits; anything else is a
    [ValueError] (signs, blanks and underscores, which [int] also
    accepts, never reach it in this program). *)
Definition int (s : string) : result Z :=
  match s with
  | EmptyString => Raise ValueError
  | _ => match NilEmpty.uint_of_string s with
         | Some d => Ok (Z.of_uint d)
         | None => Raise ValueError
         end
  end.

End Py.

(** ** Dictionaries: association lists in insertion order *)

Section Dict.
Context {V : Type}.

(** [d[key] = v] *)
Fixpoint dict_set (key : string) (v : V) (d : list (string * V)) : list (string * V) :=
  match d with
  | [] => [(key, v)]
  | (k, w) :: d' =>
      if String.eqb k key then (k, v) :: d' else (k, w) :: dict_set key v d'
  end.

Definition keys (d : list (string * V)) : list string := map fst d.
End Dict.

(** [d.get(k, default)] for a dictionary with [int] keys *)
Fixpoint int_dict_get {V : Type} (d : list (Z * V)) (k : Z) (default : V) : V :=
  match d with
  | [] => default
  | (k', v) :: d' => if Z.eqb k' k then v else int_dict_get d' k default
  end.

(** ** Regular expressions: a backtracking matcher

    The patterns of this program are sequences and alternatives of
    literals and of greedy repetitions of one character class, with
    capturing groups and the anchors [^] and [$].  No group sits under an
    alternative, so the groups of a match are a list in the order of
    their opening parentheses. *)

Module Re.

Inductive regex : Type :=
| Lit (t : string)                                    (* the text [t] *)
| Rep (c : ascii -> bool) (lo : nat) (hi : option nat) (* [c{lo,hi}], greedy *)
| Seq (r1 r2 : regex)                                 (* [r1 r2] *)
| Alt (r1 r2 : regex)                                 (* [r1|r2] *)
| Grp (r : regex)                                     (* [(r)] *)
| Bol                                                 (* [^] *)
| Eol.                                                (* [$] *)

Declare Scope regex_scope.
Delimit Scope regex_scope with re.
Bind Scope regex_scope with regex.
Infix "++" := Seq (right associativity, at level 60) : regex_scope.
Infix "||" := Alt (left associativity, at level 50) : regex_scope.

(** [\s+], [\w+], [\d{1,2}] *)
Definition plus (c : ascii -> bool) : regex := Rep c 1 None.
Definition times (c : ascii -> bool) (lo hi : nat) : regex := Rep c lo (Some hi).

Fixpoint strip_prefix (t s : string) : option string :=
  match t, s with
  | EmptyString, _ => Some s
  | String a t', String b s' => if Ascii.eqb a b then strip_prefix t' s' else None
  | String _ _, EmptyString => None
  end.

Definition may_take (hi : option nat) : bool :=
  match hi with
  | Some O => false
  | _ => true
  end.

Definition one_less (hi : option nat) : option nat := option_map Nat.pred hi.

(** [$] without [re.MULTILINE]: the end of the string, or just before a
    newline that ends the string *)
Definition at_eol (s : string) : bool :=
  match s with
  | EmptyString => true
  | String a EmptyString => Ascii.eqb a "010"
  | _ => false
  end.

Definition orelse {A : Type} (x y : option A) : option A :=
  match x with
  | Some _ => x
  | None => y
  end.

Section Exec.
Context {A : Type}.

(** A continuation receives the position reached, the text left and
    the groups closed so far. *)
Definition cont : Type := nat -> string -> list string -> option A.

(** Greedy repetition: one more character first, the shorter runs on
    backtracking. *)
Fixpoint rep (c : ascii -> bool) (lo : nat) (hi : option nat)
    (p : nat) (s : string) (k : nat -> string -> option A) : option A :=
  let stop := match lo with O => k p s | S _ => None end in
  match s with
  | String a s' =>
      if c a && may_take hi
      then orelse (rep c (Nat.pred lo) (one_less hi) (S p) s' k) stop
      else stop
  | EmptyString => stop
  end.

Fixpoint exec (r : regex) (p : nat) (s : string) (g : list string) (k : cont) : option A :=
  match r with
  | Lit t =>
      match strip_prefix t s with
      | Some s' => k (p + String.length t)%nat s' g
      | None => None
      end
  | Rep c lo hi => rep c lo hi p s (fun p' s' => k p' s' g)
  | Seq r1 r2 => exec r1 p s g (fun p' s' g' => exec r2 p' s' g' k)
  | Alt r1 r2 => orelse (exec r1 p s g k) (exec r2 p s g k)
  | Grp r1 =>
      exec r1 p s [] (fun p' s' g' => k p' s' (g ++ Py.take (p' - p) s :: g'))
  | Bol => if Nat.eqb p 0 then k p s g else None
  | Eol => if at_eol s then k p s g else None
  end.
End Exec.

(** [re.match(r, s)], then [.groups()] *)
Definition match_at (r : regex) (p : nat) (s : string) : option (list string) :=
  exec r p s [] (fun _ _ g => Some g).

Definition re_match (r : regex) (s : string) : option (list string) :=
  match_at r 0 s.

(** [re.search(r, s)], then [.groups()]: the first position, from the
    left, at which the pattern matches *)
Fixpoint search_from (r : regex) (p : nat) (s : string) : option (list string) :=
  orelse (match_at r p s)
         match s with
         | String _ s' => search_from r (S p) s'
         | EmptyString => None
         end.

Definition re_search (r : regex) (s : string) : option (list string) :=
  search_from r 0 s.

(** What a match is: [matches r p w rest g] says that [r], started after
    [p] characters and with [rest] following, matches the text [w] and
    closes the groups [g]. *)
Definition within (hi : option nat) (n : nat) : Prop :=
  match hi with
  | Some h => (n <= h)%nat
  | None => True
  end.

Fixpoint matches (r : regex) (p : nat) (w rest : string) (g : list string) : Prop :=
  match r with
  | Lit t => w = t /\ g = []
  | Rep c lo hi =>
      Py.all_chars c w = true /\ (lo <= String.length w)%nat /\
      within hi (String.length w) /\ g = []
  | Seq r1 r2 =>
      exists w1 w2 g1 g2,
        w = w1 +:+ w2 /\ g = g1 ++ g2 /\
        matches r1 p w1 (w2 +:+ rest) g1 /\
        matches r2 (p + String.length w1)%nat w2 rest g2
  | Alt r1 r2 => matches r1 p w rest g \/ matches r2 p w rest g
  | Grp r1 => exists g1, g = w :: g1 /\ matches r1 p w rest g1
  | Bol => w = "" /\ g = [] /\ p = 0%nat
  | Eol => w = "" /\ g = [] /\ (rest = "" \/ rest = String "010" "")
  end.

End Re.

(** ** The calendar of [datetime]: proleptic Gregorian dates *)

Module Datetime.

Record date : Type := Date { year : Z; month : Z; day : Z }.

Definition is_leap (y : Z) : bool :=
  (y mod 4 =? 0) && (negb (y mod 100 =? 0) || (y mod 400 =? 0)).

Definition days_in_month (y m : Z) : Z :=
  match m with
  | 1 | 3 | 5 | 7 | 8 | 10 | 12 => 31
  | 4 | 6 | 9 | 11 => 30
  | 2 => if is_leap y then 29 else 28
  | _ => 0
  end.

(** Days in the years before [y] *)
Definition days_before_year (y : Z) : Z :=
  let p := y - 1 in p * 365 + p / 4 - p / 100 + p / 400.

(** Days of year [y] before the first of month [m] *)
Definition days_before_month (y m : Z) : Z :=
  match m with
  | 1 => 0 | 2 => 31 | 3 => 59 | 4 => 90 | 5 => 120 | 6 => 151
  | 7 => 181 | 8 => 212 | 9 => 243 | 10 => 273 | 11 => 304 | 12 => 334
  | _ => 0
  end + (if (2 <? m) && is_leap y then 1 else 0).

(** [d.toordinal()]: 1 January of year 1 is day 1 *)
Definition toordinal (d : date) : Z :=
  days_before_year (year d) + days_before_month (year d) (month d) + day d.

(** [(a - b).days] for two dates *)
Definition days_between (a b : date) : Z := toordinal a - toordinal b.

Definition valid (y m d : Z) : bool :=
  (1 <=? y) && (y <=? 9999) && (1 <=? m) && (m <=? 12) &&
  (1 <=? d) && (d <=? days_in_month y m).

(** [datetime(y, m, d)]: a [ValueError] when there is no such day *)
Definition make (y m d : Z) : result date :=
  if valid y m d then Ok (Date y m d) else Raise ValueError.

(** [d.replace(year=y)] *)
Definition replace_year (d : date) (y : Z) : result date :=
  make y (month d) (day d).

(** *** [datetime.strptime]

    The two formats of this program are [%d %b %Y] and [%d %B %Y]: a day
    of the month, a month name (abbreviated, or in full) and a year, with
    white space between them.  [strptime] reads a day of one or two
    digits from 1 to 31, a month name of the C locale in any letter case,
    and a year of exactly four digits; a blank in the format stands for
    one or more white-space characters in the text; the whole text must
    be used up; the date must exist.  Every failure is a [ValueError].
    The text that [beautify] passes begins with a digit, so the blank
    that [%d] tolerates before a single digit is not modelled. *)

Inductive format : Type :=
| d_b_Y       (* "%d %b %Y" *)
| d_B_Y.      (* "%d %B %Y" *)

Definition month_names (fmt : format) : list string :=
  match fmt with
  | d_b_Y => ["jan"; "feb"; "mar"; "apr"; "may"; "jun";
              "jul"; "aug"; "sep"; "oct"; "nov"; "dec"]
  | d_B_Y => ["january"; "february"; "march"; "april"; "may"; "june";
              "july"; "august"; "september"; "october"; "november"; "december"]
  end.

Fixpoint index_from (i : Z) (x : string) (l : list string) : option Z :=
  match l with
  | [] => None
  | y :: l' => if String.eqb x y then Some i else index_from (i + 1) x l'
  end.

Definition digits_value (s : string) : option Z :=
  if Py.all_chars Py.is_digit s
  then option_map Z.of_uint (NilEmpty.uint_of_string s)
  else None.

Definition read_day (s : string) : option Z :=
  if (1 <=? String.length s)%nat && (String.length s <=? 2)%nat then
    match digits_value s with
    | Some d => if (1 <=? d) && (d <=? 31) then Some d else None
    | None => None
    end
  else None.

Definition read_month (fmt : format) (s : string) : option Z :=
  index_from 1 (Py.lower s) (month_names fmt).

Definition read_year (s : string) : option Z :=
  if (String.length s =? 4)%nat then digits_value s else None.

(** The longest prefix of characters of class [c], and what follows it *)
Fixpoint span (c : ascii -> bool) (s : string) : string * string :=
  match s with
  | EmptyString => (EmptyString, EmptyString)
  | String a s' =>
      if c a then let (w, r) := span c s' in (String a w, r)
      else (EmptyString, s)
  end.

Definition not_space (a : ascii) : bool := negb (Py.is_space a).

Definition strptime (data : string) (fmt : format) : result date :=
  let (f1, r1) := span not_space data in
  let (b1, r2) := span Py.is_space r1 in
  let (f2, r3) := span not_space r2 in
  let (b2, r4) := span Py.is_space r3 in
  let (f3, r5) := span not_space r4 in
  match b1, b2, r5 with
  | String _ _, String _ _, EmptyString =>
      match read_day f1, read_month fmt f2, read_year f3 with
      | Some d, Some m, Some y => make y m d
      | _, _, _ => Raise ValueError
      end
  | _, _, _ => Raise ValueError
  end.

End Datetime.

(** ** The extractor: [html_to_json.py] *)

Module Html.

(** The tree BeautifulSoup builds: text, and tags with the tokens of
    their [class] attribute (none when the attribute is absent). *)
#[warnings="-register-all"]
Inductive node : Type :=
| NavigableString (text : string)
| Tag (name : string) (class : list string) (contents : list node).

(** [el.descendants]: everything below [el], in document order *)
Fixpoint descendants (el : node) : list node :=
  match el with
  | NavigableString _ => []
  | Tag _ _ contents =>
      (fix below (l : list node) : list node :=
         match l with
         | [] => []
         | c :: l' => c :: descendants c ++ below l'
         end) contents
  end.

(** [el.get("class", [])] *)
Definition get_class (el : node) : list string :=
  match el with
  | Tag _ class _ => class
  | NavigableString _ => []
  end.

(** The selector [.name]: a tag that has the class token [name] *)
Definition has_class (name : string) (el : node) : bool :=
  match el with
  | Tag _ class _ => existsb (String.eqb name) class
  | NavigableString _ => false
  end.

(** The selector [[class*=part]]: a tag whose [class] attribute, its
    tokens joined by blanks, contains [part] *)
Definition class_has_part (part : string) (el : node) : bool :=
  match el with
  | Tag _ (_ :: _ as class) _ => Py.contains part (Py.join " " class)
  | _ => false
  end.

(** [el.select(...)] and [el.select_one(...)] for a simple selector *)
Definition select (sel : node -> bool) (el : node) : list node :=
  List.filter sel (descendants el).

Definition select_one (sel : node -> bool) (el : node) : option node :=
  head (select sel el).

(** [el.get_text(strip=True)]: the text pieces below [el], each one
    stripped, the empty ones dropped, glued together *)
Definition stripped_strings (el : node) : list string :=
  flat_map (fun n => match n with
                     | NavigableString t =>
                         match Py.strip t with
                         | EmptyString => []
                         | t' => [t']
                         end
                     | Tag _ _ _ => []
                     end) (descendants el).

Definition get_text_strip (el : node) : string :=
  Py.join "" (stripped_strings el).

End Html.

Import Re Html.

(** The suffix step of [format_collection_date] (its [if]/[else] on
    [day]): [11 <= day <= 13] gives "th", otherwise the dictionary
    [{1: "st", 2: "nd", 3: "rd"}] is asked for [day % 10], "th" being the
    default. *)
Definition ordinal_suffix (day : Z) : string :=
  if (11 <=? day) && (day <=? 13) then "th"
  else int_dict_get [(1, "st"); (2, "nd"); (3, "rd")] (day mod 10) "th".

(** [^(Monday|Tuesday|Wednesday|Thursday|Friday|Saturday|Sunday)\s+(\d{1,2})\s+(\w+)$] *)
Definition raw_date_re : regex :=
  (Bol ++
   Grp (Lit "Monday" || Lit "Tuesday" || Lit "Wednesday" || Lit "Thursday" ||
        Lit "Friday" || Lit "Saturday" || Lit "Sunday") ++
   plus Py.is_space ++
   Grp (times Py.is_digit 1 2) ++
   plus Py.is_space ++
   Grp (plus Py.is_word) ++
   Eol)%re.

Definition format_collection_date (raw : string) : result string :=
  match re_match raw_date_re raw with
  | None => Ok raw
  | Some [weekday; day_str; month] =>
      let? day := Py.int day_str in
      let suffix := ordinal_suffix day in
      Ok (weekday +:+ ", " +:+ Py.str day +:+ suffix +:+ " " +:+ Py.upper (Py.take 3 month))
  | Some _ => Raise ValueError   (* unpacking [m.groups()] into three names *)
  end.

Definition mapping : list (string * string) :=
  [ ("rubbish_collection_difs_black", "Rubbish");
    ("rubbish_collection_difs_green", "Recycling");
    ("rubbish_collection_difs_purple", "Food") ].

Definition rubbish_date_wrap : node -> bool := has_class "rubbish_date_wrap".
Definition rubbish_collection_difs_ : node -> bool := class_has_part "rubbish_collection_difs_".
Definition datetext : node -> bool := has_class "rubbish_date_container_left_datetext".

(** The inner loop [for css_class, key in mapping.items()] *)
Fixpoint map_classes (class_str : string) (date_el : node)
    (m : list (string * string)) (result_ : list (string * string))
    : result (list (string * string)) :=
  match m with
  | [] => Ok result_
  | (css_class, key) :: m' =>
      if Py.contains css_class class_str then
        let raw_date := get_text_strip date_el in
        let? formatted := format_collection_date raw_date in
        map_classes class_str date_el m' (dict_set key formatted result_)
      else map_classes class_str date_el m' result_
  end.

(** The loop [for block in blocks] *)
Fixpoint each_block (blocks : list node) (result_ : list (string * string))
    : result (list (string * string)) :=
  match blocks with
  | [] => Ok result_
  | block :: blocks' =>
      match select_one rubbish_collection_difs_ block, select_one datetext block with
      | Some header, Some date_el =>
          (* the parser gives [class] as a list, so [class_str] is the
             tokens joined by blanks *)
          let classes := get_class header in
          let class_str := Py.join " " classes in
          let? result' := map_classes class_str date_el mapping result_ in
          each_block blocks' result'
      | _, _ => each_block blocks' result_
      end
  end.

Section Extractor.

(** [BeautifulSoup(html, "html.parser")]: the document, or the
    exception the parser raises on markup it rejects *)
Variable BeautifulSoup : string -> result node.

Definition parse_to_json_try (html : string) : result (list (string * string)) :=
  let? soup := BeautifulSoup html in
  let blocks := select rubbish_date_wrap soup in
  match blocks with
  | [] => Ok [("Error", "Invalid HTML")]
  | _ :: _ =>
      let? result_ := each_block blocks [] in
      match result_ with
      | [] => Ok [("Error", "JSON Mapping")]
      | _ :: _ => Ok result_
      end
  end.

Definition parse_to_json (html : string) : list (string * string) :=
  match parse_to_json_try html with
  | Ok d => d
  | Raise _ => [("Error", "Exception")]
  end.

End Extractor.

(** ** Python values and the heap *)

Definition loc : Type := nat.

Inductive value : Type :=
| VNone
| VBool (b : bool)
| VInt (n : Z)
| VStr (s : string)
| VRef (l : loc).          (* a reference to a dictionary or a list *)

Inductive object : Type :=
| Dict (items : list (string * value))
| PyList (elems : list value).

Abbreviation heap := (gmap loc object).

(** A new object, at an address not in use *)
Definition alloc (o : object) (h : heap) : loc * heap :=
  let l := fresh (dom h) in (l, <[l := o]> h).

(** [isinstance(v, dict)], with the items of the dictionary *)
Definition as_dict (h : heap) (v : value) : option (list (string * value)) :=
  match v with
  | VRef l => match h !! l with
              | Some (Dict items) => Some items
              | _ => None
              end
  | _ => None
  end.

(** [d[key] = v] on the dictionary at address [l] *)
Definition setitem (l : loc) (key : string) (v : value) (h : heap) : heap :=
  match h !! l with
  | Some (Dict items) => <[l := Dict (dict_set key v items)]> h
  | _ => h
  end.

(** ** The normalizer: [beautify_json.py] *)

Import Datetime.

(** [(\w+),\s+(\d{1,2})(st|nd|rd|th)\s+(\w+)] *)
Definition council_re : regex :=
  (Grp (plus Py.is_word) ++
   Lit "," ++
   plus Py.is_space ++
   Grp (times Py.is_digit 1 2) ++
   Grp (Lit "st" || Lit "nd" || Lit "rd" || Lit "th") ++
   plus Py.is_space ++
   Grp (plus Py.is_word))%re.

(** The loop [for fmt in ("%d %b %Y", "%d %B %Y")]: the first format
    that reads the text; a [ValueError] moves on to the next one. *)
Fixpoint first_format (data : string) (fmts : list format) : result (option date) :=
  match fmts with
  | [] => Ok None
  | fmt :: fmts' =>
      match strptime data fmt with
      | Ok d => Ok (Some d)
      | Raise ValueError => first_format data fmts'
      | Raise e => Raise e
      end
  end.

(** The [Year rollover] step *)
Definition year_rollover (now target_date : date) (current_year : Z) : result date :=
  if days_between target_date now <? -30
  then replace_year target_date (current_year + 1)
  else Ok target_date.

(** The last step: the display string for a difference in days *)
Definition display (diff : Z) (weekday_short day suffix : string) : string :=
  if diff =? 0 then "Today"
  else if diff =? 1 then "Tomorrow"
  else Py.str diff +:+ " Days (" +:+ weekday_short +:+ " " +:+ day +:+ suffix +:+ ")".

(** The body of the loop for a [str] value: what is stored under the key *)
Definition beautify_str (now : date) (current_year : Z) (value_ : string) : result string :=
  let text := Py.strip value_ in
  if String.eqb (Py.lower text) "today" then Ok "Today"
  else
    match re_search council_re text with
    | None => Ok value_
    | Some [weekday_full; day; suffix; month_str] =>
        let month_norm := Py.title month_str in
        let? target_date :=
          first_format (day +:+ " " +:+ month_norm +:+ " " +:+ Py.str current_year)
                       [d_b_Y; d_B_Y] in
        match target_date with
        | None => Ok value_
        | Some target_date =>
            let? target_date := year_rollover now target_date current_year in
            let diff := days_between target_date now in
            let weekday_short := Py.take 3 weekday_full in
            Ok (display diff weekday_short day suffix)
        end
    | Some _ => Raise ValueError
    end.

(** The body of the loop for any value *)
Definition beautify_value (now : date) (current_year : Z) (value_ : value) : result value :=
  match value_ with
  | VStr s => let? s' := beautify_str now current_year s in Ok (VStr s')
  | _ => Ok value_
  end.

(** The loop [for key, value in input_data.items()], writing into the
    dictionary at [output]; an exception leaves the loop at once. *)
Fixpoint beautify_loop (now : date) (current_year : Z)
    (items : list (string * value)) (output : loc) (h : heap) : result unit * heap :=
  match items with
  | [] => (Ok tt, h)
  | (key, value_) :: items' =>
      match beautify_value now current_year value_ with
      | Ok v => beautify_loop now current_year items' output (setitem output key v h)
      | Raise e => (Raise e, h)
      end
  end.

(** The [try] block *)
Definition beautify_try (now : date) (input_data : value) (h : heap) : result value * heap :=
  match as_dict h input_data with
  | None => (Ok input_data, h)
  | Some items =>
      let current_year := year now in
      let (output, h1) := alloc (Dict []) h in
      match beautify_loop now current_year items output h1 with
      | (Ok _, h2) => (Ok (VRef output), h2)
      | (Raise e, h2) => (Raise e, h2)
      end
  end.

Definition beautify (now : date) (input_data : value) (h : heap) : value * heap :=
  let original_input := input_data in
  match beautify_try now input_data h with
  | (Ok v, h') => (v, h')
  | (Raise _, h') => (original_input, h')
  end.

(** ** The scraper: [website_scraper.py] *)

(** What the scraper asks of Playwright, in the order of the source. *)
Inductive call : Type :=
| SyncPlaywright
| Launch (headless : bool) (args : list string)
| NewContext
| NewPage
| Goto (url wait_until : string) (timeout : Z)
| Fill (selector text : string)
| Click (selector : string)
| ElementHandle (selector : string)
| WaitForFunction (expression : string) (timeout : Z)
| SelectOption (selector value_ : string)
| WaitForSelector (selector : string) (timeout : Z)
| InnerHtml (selector : string)
| ContextClose
| BrowserClose
| SyncPlaywrightExit (raised : option exn).

(** [str], or the dictionary of an error *)
Inductive ResultType : Type :=
| Str (html : string)
| ErrorDict (d : list (string * string)).

Definition run {B A : Type} (x : B -> result A * B) (k : A -> B -> result string * B)
    (b : B) : result string * B :=
  match x b with
  | (Ok a, b') => k a b'
  | (Raise e, b') => (Raise e, b')
  end.

(** The exception in flight when a block is left, if any *)
Definition raised {A : Type} (r : result A) : option exn :=
  match r with
  | Ok _ => None
  | Raise e => Some e
  end.

Section Scraper.

(** The browser: a state, and how it answers a call (with the text it
    returns, which only [inner_html] uses) or raises. *)
Variable Browser : Type.
Variable playwright : call -> Browser -> result string * Browser.

(** The body of [with sync_playwright() as p:] *)
Definition with_block (url postcode address_value : string) : Browser -> result string * Browser :=
  let result_selector := "#FINDYOURBINDAYS3WEEKLY_RUBBISHRECYCLEFOODDATE" in
  run (playwright (Launch true ["--disable-gpu"; "--disable-dev-shm-usage";
                                "--no-sandbox"; "--disable-software-rasterizer"])) (fun _ =>
  run (playwright NewContext) (fun _ =>
  run (playwright NewPage) (fun _ =>
  run (playwright (Goto url "domcontentloaded" 60000)) (fun _ =>
  run (playwright (Fill "#FINDYOURBINDAYS3WEEKLY_ADDRESSLOOKUPPOSTCODE" postcode)) (fun _ =>
  run (playwright (Click "#FINDYOURBINDAYS3WEEKLY_ADDRESSLOOKUPSEARCH")) (fun _ =>
  run (playwright (ElementHandle "#FINDYOURBINDAYS3WEEKLY_ADDRESSLOOKUPADDRESS")) (fun _ =>
  run (playwright (WaitForFunction "el => el.options.length > 1" 20000)) (fun _ =>
  run (playwright (SelectOption "#FINDYOURBINDAYS3WEEKLY_ADDRESSLOOKUPADDRESS"
                                address_value)) (fun _ =>
  run (playwright (WaitForSelector (result_selector +:+ " .rubbish_date_wrap") 20000)) (fun _ =>
  run (playwright (InnerHtml result_selector)) (fun html =>
  run (playwright ContextClose) (fun _ =>
  run (playwright BrowserClose) (fun _ b =>
  (Ok html, b)))))))))))))).

(** The [try] block, which is the [with] statement.  When
    [sync_playwright()] is entered, the body runs and then, however it
    was left (by [return html] or by an exception), the exit of the
    context manager runs, with the exception in flight if there is one.
    An exception of the exit takes the place of the outcome of the body.
    When the exit answers, the outcome of the body stands: the manager
    of Playwright returns [None] from its exit, so that it never
    swallows an exception of the body. *)
Definition scrape_try (url postcode address_value : string) (b : Browser)
    : result string * Browser :=
  match playwright SyncPlaywright b with
  | (Raise e, b1) => (Raise e, b1)
  | (Ok _, b1) =>
      let (r, b2) := with_block url postcode address_value b1 in
      match playwright (SyncPlaywrightExit (raised r)) b2 with
      | (Ok _, b3) => (r, b3)
      | (Raise e, b3) => (Raise e, b3)
      end
  end.

Definition scrape_url_get_html (url postcode address_value : string) (b : Browser)
    : ResultType * Browser :=
  match scrape_try url postcode address_value b with
  | (Ok html, b') => (Str html, b')
  | (Raise PlaywrightTimeoutError, b') => (ErrorDict [("Error", "Browser")], b')
  | (Raise _, b') => (ErrorDict [("Error", "Unknown")], b')
  end.

End Scraper.

(** ** The pipeline: [main.py] *)

Definition URL : string :=
  "https://www.westberks.gov.uk/article/35776/Find-your-next-collection-day".
Definition POSTCODE : string := "RG7 ".
Definition ADDRESS_VALUE : string := "".

(** What [main] does that can be seen from outside: the stages it
    enters and the record it hands to [show_result]. *)
Inductive event : Type :=
| Scraping
| Parsing
| Beautifying
| ShowResult (shown : option (list (string * value))).

Definition str_items (d : list (string * string)) : list (string * value) :=
  map (fun kv => (fst kv, VStr (snd kv))) d.

Section Main.

Variable Browser : Type.
Variable playwright : call -> Browser -> result string * Browser.
Variable BeautifulSoup : string -> result node.
Variable now : date.

Definition main (b : Browser) : list event :=
  let (html_or_error, _) :=
    scrape_url_get_html Browser playwright URL POSTCODE ADDRESS_VALUE b in
  match html_or_error with
  | ErrorDict d => [Scraping; ShowResult (Some (str_items d))]
  | Str html =>
      let (parsed, h) := alloc (Dict (str_items (parse_to_json BeautifulSoup html))) ∅ in
      let (parsed', h') := beautify now (VRef parsed) h in
      [Scraping; Parsing; Beautifying; ShowResult (as_dict h' parsed')]
  end.

End Main.

(** ** The vocabulary of the specification *)

Definition weekdays : list string :=
  ["Monday"; "Tuesday"; "Wednesday"; "Thursday"; "Friday"; "Saturday"; "Sunday"].

(** A month: its full English name, its three-letter form, its number. *)
Definition months : list (string * string * Z) :=
  [ ("January", "JAN", 1); ("February", "FEB", 2); ("March", "MAR", 3);
    ("April", "APR", 4); ("May", "MAY", 5); ("June", "JUN", 6);
    ("July", "JUL", 7); ("August", "AUG", 8); ("September", "SEP", 9);
    ("October", "OCT", 10); ("November", "NOV", 11); ("December", "DEC", 12) ].

Definition days_1_31 : list Z := map Z.of_nat (seq 1 31).

(** The ordinal rule in the words of the specification: "th" for 11, 12
    and 13, otherwise by the last digit. *)
Definition suffix_rule (day : Z) : string :=
  if existsb (Z.eqb day) [11; 12; 13] then "th"
  else match day mod 10 with
       | 1 => "st"
       | 2 => "nd"
       | 3 => "rd"
       | _ => "th"
       end.

(** The raw phrase ["<Weekday> <Day> <Month>"] of the council page and
    the canonical token ["<Weekday>, <Day><Suffix> <MON>"]. *)
Definition raw_phrase (weekday : string) (day : Z) (month : string) : string :=
  weekday +:+ " " +:+ Py.str day +:+ " " +:+ month.

Definition canonical_token (weekday : string) (day : Z) (mon : string) : string :=
  weekday +:+ ", " +:+ Py.str day +:+ suffix_rule day +:+ " " +:+ mon.



Definition canonical_tokens : list string :=
  flat_map (fun wd =>
    flat_map (fun d =>
      map (fun m => canonical_token wd d (snd (fst m))) months) days_1_31) weekdays.

Definition is_canonical_token (v : string) : bool :=
  existsb (String.eqb v) canonical_tokens.

(** The shapes the two patterns of the code accept. *)
Definition blank (s : string) : Prop :=
  s <> "" /\ Py.all_chars Py.is_space s = true.

Definition word (s : string) : Prop :=
  s <> "" /\ Py.all_chars Py.is_word s = true.

Definition day_digits (s : string) : Prop :=
  Py.all_chars Py.is_digit s = true /\
  (1 <= String.length s)%nat /\ (String.length s <= 2)%nat.

Definition newline : string := String "010" "".

(** A weekday name, white space, one or two digits, white space, a word,
    and at most one newline at the very end. *)
Definition raw_date_shape (raw weekday day_str month : string) : Prop :=
  exists b1 b2 nl,
    raw = weekday +:+ b1 +:+ day_str +:+ b2 +:+ month +:+ nl /\
    In weekday weekdays /\ blank b1 /\ day_digits day_str /\ blank b2 /\
    word month /\ (nl = "" \/ nl = newline).

(** Somewhere in the text: a word, a comma, white space, one or two
    digits, one of the four suffixes, white space, a word. *)
Definition council_shape (text weekday day suffix month : string) : Prop :=
  exists pre b1 b2 post,
    text = pre +:+ weekday +:+ "," +:+ b1 +:+ day +:+ suffix +:+ b2 +:+ month +:+ post /\
    word weekday /\ blank b1 /\ day_digits day /\
    In suffix ["st"; "nd"; "rd"; "th"] /\ blank b2 /\ word month.

(** The recycling block of the page, as [website_scraper.py] quotes it,
    and the document BeautifulSoup makes of a list of blocks. *)
Definition div (class : list string) (contents : list node) : node :=
  Tag "div" class contents.

Definition recycling_block : node :=
  div ["rubbish_date_wrap"]
    [ NavigableString "     ";
      div ["rubbish_date_container"]
        [ NavigableString "         ";
          div ["rubbish_date_container_left"; "rubbish_collection_difs_green"]
            [ NavigableString "             Your next recycling collection day is             ";
              Tag "br" [] [];
              NavigableString "             ";
              div ["rubbish_date_container_left_datetext"]
                [ NavigableString "Saturday 17 January" ];
              NavigableString "         " ];
          NavigableString "         ";
          div ["rubbish_date_container_right"; "rubbish_date_container_right_green"]
            [ NavigableString "             Collection calendar ";
              Tag "b" [] [ NavigableString "5" ];
              NavigableString "             ";
              Tag "br" [] [];
              NavigableString "             ";
              div ["rubbish_date_schedule_desc"]
                [ NavigableString "                 Friday every other week             " ];
              NavigableString "         " ];
          NavigableString "     " ];
      NavigableString newline ].

Definition document (contents : list node) : node := Tag "[document]" [] contents.

(** The three categories, and the error codes the specification lists. *)
Definition categories : list string := ["Rubbish"; "Recycling"; "Food"].

Definition spec_codes : list string :=
  ["Browser"; "Unknown"; "Invalid HTML"; "JSON Mapping"].

(** The categories whose marker the header of a block carries; whether
    the block has a date element; the categories a block contributes. *)
Definition marker_keys (block : node) : list string :=
  match select_one rubbish_collection_difs_ block with
  | Some header =>
      map snd (List.filter (fun m => Py.contains (fst m) (Py.join " " (get_class header)))
                      mapping)
  | None => []
  end.

Definition has_date_el (block : node) : bool :=
  match select_one datetext block with
  | Some _ => true
  | None => false
  end.

Definition entry_keys (block : node) : list string :=
  if has_date_el block then marker_keys block else [].


(** Entry by entry, what the loop of [beautify] has stored when it ends
    normally. *)
Definition entry_done (now : date) (Y : Z) (kv kv' : string * value) : Prop :=
  kv.1 = kv'.1 /\ beautify_value now Y kv.2 = Ok kv'.2.

(** Two heaps to run [beautify] on: a record with a token and a number,
    and a record with the 29th of February. *)
Definition sample_items : list (string * value) :=
  [("Rubbish", VStr "Saturday, 3rd JAN"); ("Collections", VInt 3)].

Definition sample_heap : heap := <[0%nat := Dict sample_items]> ∅.

Definition leap_items : list (string * value) :=
  [("Rubbish", VStr "Friday, 3rd JAN"); ("Food", VStr "Thursday, 29th FEB")].

Definition leap_heap : heap := <[0%nat := Dict leap_items]> ∅.

(** The heap with the error record of a page without blocks *)
Definition error_heap : heap := <[0%nat := Dict [("Error", VStr "Invalid HTML")]]> ∅.

(** Whether the character [c] occurs in [s] *)
Fixpoint has_char (c : ascii) (s : string) : bool :=
  match s with
  | EmptyString => false
  | String a s' => Ascii.eqb a c || has_char c s'
  end.

(** Two browsers to run [main] with: one that answers every call with
    the same text, one whose navigation times out. *)
Definition steady_browser (html : string) (c : call) (b : unit) : result string * unit :=
  (Ok html, b).

Definition stalled_browser (c : call) (b : unit) : result string * unit :=
  match c with
  | Goto _ _ _ => (Raise PlaywrightTimeoutError, b)
  | _ => (Ok "", b)
  end.

(** Checks that run over the whole grammar *)
Definition phrase_formats (wd : string) (d : Z) (m : string * string * Z) : bool :=
  match format_collection_date (raw_phrase wd d (fst (fst m))) with
  | Ok out => String.eqb out (canonical_token wd d (snd (fst m)))
  | Raise _ => false
  end.

Definition opt_eqb (x y : option Z) : bool :=
  match x, y with
  | Some a, Some b => Z.eqb a b
  | None, None => true
  | _, _ => false
  end.

(** A field of the text [strptime] reads: not empty, no white space *)
Definition is_field (f : string) : bool :=
  negb (String.eqb f "") && Py.all_chars not_space f.

Definition token_parses (wd : string) (d : Z) (m : string * string * Z) : bool :=
  let t := canonical_token wd d (snd (fst m)) in
  negb (String.eqb (Py.lower (Py.strip t)) "today") &&
  match re_search council_re (Py.strip t) with
  | Some [w; ds; suf; mon] =>
      String.eqb w wd && String.eqb ds (Py.str d) &&
      String.eqb suf (suffix_rule d) && String.eqb mon (snd (fst m))
  | _ => false
  end.

Definition day_reads (d : Z) : bool :=
  is_field (Py.str d) && opt_eqb (read_day (Py.str d)) (Some d).

Definition month_reads (m : string * string * Z) : bool :=
  let t := Py.title (snd (fst m)) in
  is_field t &&
  opt_eqb (read_month d_b_Y t) (Some (snd m)) &&
  opt_eqb (read_month d_B_Y t) (if snd m =? 5 then Some 5 else None).

Definition year_reads (y : Z) : bool :=
  is_field (Py.str y) && opt_eqb (read_year (Py.str y)) (Some y).

Definition years_1000_9999 : list Z :=
  map (fun n => 1000 + Z.of_nat n) (seq 0 (Z.to_nat 9000)).

(** [r] does not begin with a character of class [c] *)
Definition starts_not (c : ascii -> bool) (r : string) : Prop :=
  match r with
  | EmptyString => True
  | String a _ => c a = false
  end.

(** ** The scraper, call by call *)

(** The calls inside the [with] block of [scrape_url_get_html], in the
    order of the source. *)
Definition script (url postcode address_value : string) : list call :=
  [ Launch true ["--disable-gpu"; "--disable-dev-shm-usage";
                 "--no-sandbox"; "--disable-software-rasterizer"];
    NewContext;
    NewPage;
    Goto url "domcontentloaded" 60000;
    Fill "#FINDYOURBINDAYS3WEEKLY_ADDRESSLOOKUPPOSTCODE" postcode;
    Click "#FINDYOURBINDAYS3WEEKLY_ADDRESSLOOKUPSEARCH";
    ElementHandle "#FINDYOURBINDAYS3WEEKLY_ADDRESSLOOKUPADDRESS";
    WaitForFunction "el => el.options.length > 1" 20000;
    SelectOption "#FINDYOURBINDAYS3WEEKLY_ADDRESSLOOKUPADDRESS" address_value;
    WaitForSelector "#FINDYOURBINDAYS3WEEKLY_RUBBISHRECYCLEFOODDATE .rubbish_date_wrap" 20000;
    InnerHtml "#FINDYOURBINDAYS3WEEKLY_RUBBISHRECYCLEFOODDATE";
    ContextClose;
    BrowserClose ].

(** A list of calls made one after the other, up to and including the
    first one that raises: each call with its answer, and the browser
    at the end. *)
Fixpoint play {Browser : Type} (playwright : call -> Browser -> result string * Browser)
    (cs : list call) (b : Browser) : list (call * result string) * Browser :=
  match cs with
  | [] => ([], b)
  | c :: cs' =>
      match playwright c b with
      | (Ok a, b') => let (t, b'') := play playwright cs' b' in ((c, Ok a) :: t, b'')
      | (Raise e, b') => ([(c, Raise e)], b')
      end
  end.

Definition answered (ca : call * result string) : Prop :=
  exists a, ca.2 = Ok a.

(** A browser that keeps the record of the calls made on it, each with
    its answer: running the scraper on it gives the calls the scraper
    makes. *)
Definition logged {Browser : Type} (playwright : call -> Browser -> result string * Browser)
    (c : call) (bl : Browser * list (call * result string))
    : result string * (Browser * list (call * result string)) :=
  let (r, b') := playwright c bl.1 in (r, (b', bl.2 ++ [(c, r)])).

(** A call on the context manager itself: entering or leaving it *)
Definition on_manager (c : call) : bool :=
  match c with
  | SyncPlaywright | SyncPlaywrightExit _ => true
  | _ => false
  end.

(** The error code of the scraper for an exception *)
Definition scraper_code (e : exn) : string :=
  match e with
  | PlaywrightTimeoutError => "Browser"
  | _ => "Unknown"
  end.

(** A browser whose page never shows the results: the wait for the
    result selector times out. *)
Definition no_results_browser (c : call) (b : unit) : result string * unit :=
  match c with
  | WaitForSelector _ _ => (Raise PlaywrightTimeoutError, b)
  | _ => (Ok "", b)
  end.

(** ** Reading the current year back *)

(** The year [beautify] writes into the text is read back by [%Y] when
    it has four digits, and not at all when it has fewer. *)
Definition year_reads_back (y : Z) : bool :=
  is_field (Py.str y) &&
  opt_eqb (read_year (Py.str y)) (if 1000 <=? y then Some y else None).

Definition years_1_9999 : list Z :=
  map (fun n => 1 + Z.of_nat n) (seq 0 (Z.to_nat 9999)).

(** A date that exists *)
Definition valid_date (d : date) : bool := valid (year d) (month d) (day d).

(** [d.get(key)] on an association list *)
Fixpoint dict_get {V : Type} (key : string) (d : list (string * V)) : option V :=
  match d with
  | [] => None
  | (k, v) :: d' => if String.eqb k key then Some v else dict_get key d'
  end.


(** ** The display layer: [output.py]

    The panel driver, the fonts of the system, the socket and the two
    clocks are the environment.  A [float] (a time in seconds, the
    length of a text in pixels) is the rational number it stands for;
    comparing a float with an [int] is exact, the subtraction of two
    floats is rounded and is a parameter.  The module binds [datetime]
    to the module of that name, so the three debug prints that ask it
    for [datetime.now()] raise [AttributeError]; no other attribute
    error is modelled. *)

Module Output.

Abbreviation Q := QArith_base.Q.
Abbreviation Qle_bool := QArith_base.Qle_bool.
Abbreviation Qeq_bool := QArith_base.Qeq_bool.
Abbreviation inject_Z := QArith_base.inject_Z.

Definition WIDTH : Z := 250.
Definition HEIGHT : Z := 122.
Definition LEFT_MARGIN : Z := 6.
Definition RIGHT_MARGIN : Z := 6.
Definition TOP_MARGIN : Z := 4.
Definition BOTTOM_MARGIN : Z := 4.
Definition HEADER_SIZE : Z := 17.
Definition ROW_SIZE : Z := 14.
Definition FOOTER_SIZE : Z := 10.
Definition ROW_GAP : Z := 10.
Definition HEADER_GAP : Z := 12.
Definition LABEL_COL_X : Z := LEFT_MARGIN.
Definition DATE_COL_X : Z := 92.
Definition FULL_REFRESH_INTERVAL_SECONDS : Z := 30 * 60.
Definition PARTIAL_REFRESH_LIMIT : Z := 50.
Definition MIN_REFRESH_SECONDS : Z := 2.

(** [x <= n], [x > n], [x < n], [x >= n] for a float [x] and an int [n] *)
Definition le_int (x : Q) (n : Z) : bool := Qle_bool x (inject_Z n).
Definition gt_int (x : Q) (n : Z) : bool := negb (le_int x n).
Definition ge_int (x : Q) (n : Z) : bool := Qle_bool (inject_Z n) x.
Definition lt_int (x : Q) (n : Z) : bool := negb (ge_int x n).

(** *** Fonts *)

Inductive font : Type :=
| TrueType (path : string) (size : Z)
| DefaultFont.

Definition candidates : list string :=
  [ "/usr/share/fonts/truetype/dejavu/DejaVuSans.ttf";
    "/usr/share/fonts/truetype/freefont/FreeSans.ttf" ].

Section Fonts.

(** [os.path.exists(p)], and whether [ImageFont.truetype(p, size)]
    returns a font rather than raising *)
Variable path_exists : string -> bool.
Variable truetype_loads : string -> Z -> bool.

Definition _ttf (path : string) (size : Z) : option font :=
  if truetype_loads path size then Some (TrueType path size) else None.

(** The loop [for p in candidates] and the default after it *)
Fixpoint load_fonts_from (ps : list string) : font * font * font :=
  match ps with
  | [] => (DefaultFont, DefaultFont, DefaultFont)
  | p :: ps' =>
      if path_exists p then
        match _ttf p HEADER_SIZE, _ttf p ROW_SIZE, _ttf p FOOTER_SIZE with
        | Some header, Some row, Some footer => (header, row, footer)
        | _, _, _ => load_fonts_from ps'
        end
      else load_fonts_from ps'
  end.

Definition _load_fonts : font * font * font := load_fonts_from candidates.

(** A candidate that exists and loads at the three sizes *)
Definition usable (p : string) : bool :=
  path_exists p && truetype_loads p HEADER_SIZE && truetype_loads p ROW_SIZE &&
  truetype_loads p FOOTER_SIZE.

End Fonts.

(** *** The module when it is loaded *)

Record module_globals : Type := {
  EPD_AVAILABLE : bool;
  epd2in13_V4 : bool;            (* [epd2in13_V4 is not None] *)
  HEADER_FONT : font;
  ROW_FONT : font;
  FOOTER_FONT : font
}.


(** [_get_local_ip()]: the address the socket reports, or "0.0.0.0"
    when anything raises *)
Definition _get_local_ip (getsockname : result string) : string :=
  match getsockname with
  | Ok ip => ip
  | Raise _ => "0.0.0.0"
  end.

(** *** The state between calls, the result to show, the image *)

Record refresh_state : Type := {
  _last_full_refresh : option Q;
  _partial_count : Z;
  _last_refresh_time : option Q
}.

Definition initial_state : refresh_state :=
  {| _last_full_refresh := None; _partial_count := 0; _last_refresh_time := None |}.

(** [Union[Dict[str, str], str]] *)
Inductive ResultType : Type :=
| AsDict (d : list (string * string))
| AsStr (s : string).

Record text_at : Type := TextAt {
  at_x : Z;
  at_y : Z;
  text : string;
  with_font : font
}.

Inductive update_mode : Type := FULL_UPDATE | PART_UPDATE | PARTIAL_UPDATE.

Inductive epd_call : Type :=
| EPD
| Init (mode : option update_mode)
| GetBuffer (image : list text_at)
| Display (image : list text_at)
| DisplayPartial (image : list text_at)
| Sleep.

Inductive outcome : Type :=
| Returns
| RaisesAttributeError.

(** A [str] is true when it is not empty. *)
Definition truthy (s : string) : bool := negb (String.eqb s "").

(** [d.get(k1) or d.get(k2) or default] *)
Definition get_or (d : list (string * string)) (k1 k2 default : string) : string :=
  match dict_get k1 d with
  | Some (String _ _ as v) => v
  | _ =>
      match dict_get k2 d with
      | Some (String _ _ as v) => v
      | _ => default
      end
  end.

(** [k in d] *)
Definition has_key (k : string) (d : list (string * string)) : bool :=
  match dict_get k d with
  | Some _ => true
  | None => false
  end.

Section Show.

Variable m : module_globals.

(** [draw.textlength(text, font=font)] *)
Variable textlength : font -> string -> Q.

(** The panel: a state, how it answers a call, and which attributes the
    driver object has *)
Variable Panel : Type.
Variable driver : epd_call -> Panel -> result unit * Panel.
Variable has_FULL_UPDATE has_PART_UPDATE has_PARTIAL_UPDATE has_displayPartial : bool.

(** The subtraction of two floats *)
Variable fsub : Q -> Q -> Q.

Fixpoint truncate_loop (font_ : font) (max_width : Z) (rest out : string) : string :=
  match rest with
  | EmptyString => out
  | String ch rest' =>
      if gt_int (textlength font_ (out +:+ String ch "" +:+ "...")) max_width
      then out
      else truncate_loop font_ max_width rest' (out +:+ String ch "")
  end.

Definition _truncate (text_ : string) (font_ : font) (max_width : Z) : string :=
  let ellipsis := "..." in
  if le_int (textlength font_ text_) max_width then text_
  else truncate_loop font_ max_width text_ "" +:+ ellipsis.

(** [is_error] and [error_text] *)
Definition is_error (result_ : ResultType) : bool :=
  match result_ with
  | AsDict d => has_key "Error" d || has_key "error" d
  | AsStr _ => false
  end.

Definition error_text (result_ : ResultType) : string :=
  match result_ with
  | AsDict d =>
      if has_key "Error" d || has_key "error" d
      then get_or d "Error" "error" "Unknown error"
      else ""
  | AsStr _ => ""
  end.

(** The lines printed between the title and the footer *)
Definition terminal_body (result_ : ResultType) : list string :=
  match result_ with
  | AsDict d =>
      if is_error result_ then ["Error: " +:+ error_text result_]
      else [ "Rubbish:   " +:+ get_or d "Rubbish" "rubbish" "-";
             "Recycling: " +:+ get_or d "Recycling" "recycling" "-";
             "Food:      " +:+ get_or d "Food" "food" "-" ]
  | AsStr _ => ["Error: Failed to fetch/parse"]
  end.

(** The rows drawn on the panel *)
Definition rows (result_ : ResultType) : list (string * string) :=
  match result_ with
  | AsDict d =>
      if negb (is_error result_) then
        [ ("Rubbish:", get_or d "Rubbish" "rubbish" "-");
          ("Recycling:", get_or d "Recycling" "recycling" "-");
          ("Food:", get_or d "Food" "food" "-") ]
      else
        [ ("Error:", if truthy (error_text result_) then error_text result_ else "No data");
          ("", ""); ("", "") ]
  | AsStr _ =>
      [ ("Error:", if truthy (error_text result_) then error_text result_ else "No data");
        ("", ""); ("", "") ]
  end.

Definition footer_text (postcode version ip updated_str : string) : string :=
  let pc := if truthy postcode then Py.upper (Py.strip postcode) else "N/A" in
  version +:+ "     " +:+ ip +:+ "     " +:+ pc +:+ "     " +:+ updated_str.

(** The loop [for label, value in rows] *)
Fixpoint draw_rows (rs : list (string * string)) (y : Z) : list text_at :=
  match rs with
  | [] => []
  | (label, value_) :: rs' =>
      let max_value_width := WIDTH - RIGHT_MARGIN - DATE_COL_X in
      TextAt LABEL_COL_X y label (ROW_FONT m) ::
      TextAt DATE_COL_X y (_truncate value_ (ROW_FONT m) max_value_width) (ROW_FONT m) ::
      draw_rows rs' (y + (ROW_SIZE + ROW_GAP))
  end.

Definition render (result_ : ResultType) (footer : string) : list text_at :=
  let y := TOP_MARGIN in
  let max_footer_width := WIDTH - LEFT_MARGIN - RIGHT_MARGIN in
  let footer_y := HEIGHT - BOTTOM_MARGIN - FOOTER_SIZE - 1 in
  [TextAt LEFT_MARGIN y "Waste Collection" (HEADER_FONT m)] ++
  draw_rows (rows result_) (y + (HEADER_SIZE + HEADER_GAP)) ++
  [TextAt LEFT_MARGIN footer_y (_truncate footer (FOOTER_FONT m) max_footer_width)
          (FOOTER_FONT m)].

(** Calls on the panel, one after the other, up to the first that raises *)
Fixpoint calls (cs : list epd_call) (p : Panel) : result unit * Panel :=
  match cs with
  | [] => (Ok tt, p)
  | c :: cs' =>
      match driver c p with
      | (Ok _, p') => calls cs' p'
      | (Raise e, p') => (Raise e, p')
      end
  end.

Definition rate_limited (g : refresh_state) (now : Q) : bool :=
  match _last_refresh_time g with
  | Some t => negb (Qeq_bool t (inject_Z 0)) && lt_int (fsub now t) MIN_REFRESH_SECONDS
  | None => false
  end.

Definition do_full (g : refresh_state) (now : Q) : bool :=
  match _last_full_refresh g with
  | None => true
  | Some t =>
      ge_int (fsub now t) FULL_REFRESH_INTERVAL_SECONDS ||
      (PARTIAL_REFRESH_LIMIT <=? _partial_count g)
  end.

(** The [try] block that pushes the image to the panel; the state is
    updated after the image is displayed and before the panel is put to
    sleep. *)
Definition push (image : list text_at) (now : Q) (g : refresh_state) (p : Panel)
    : result unit * refresh_state * Panel :=
  if do_full g now then
    let init := Init (if has_FULL_UPDATE then Some FULL_UPDATE else None) in
    match calls [EPD; init; GetBuffer image; Display image] p with
    | (Ok _, p1) =>
        let g' := {| _last_full_refresh := Some now; _partial_count := 0;
                     _last_refresh_time := _last_refresh_time g |} in
        let (r, p2) := calls [Sleep] p1 in (r, g', p2)
    | (Raise e, p1) => (Raise e, g, p1)
    end
  else
    let init := Init (if has_PART_UPDATE then Some PART_UPDATE
                      else if has_PARTIAL_UPDATE then Some PARTIAL_UPDATE
                      else None) in
    let show := if has_displayPartial then DisplayPartial image else Display image in
    match calls [EPD; init; GetBuffer image; show] p with
    | (Ok _, p1) =>
        let g' := {| _last_full_refresh := _last_full_refresh g;
                     _partial_count := _partial_count g + 1;
                     _last_refresh_time := _last_refresh_time g |} in
        let (r, p2) := calls [Sleep] p1 in (r, g', p2)
    | (Raise e, p1) => (Raise e, g, p1)
    end.

(** [show_result]: the outcome, the lines printed, the state and the
    panel afterwards.  [updated_str] is
    [updated.strftime("%d %b     %H:%M")], [now] is [time.time()] and
    [ip] is [_get_local_ip()]. *)
Definition show_result (result_ : ResultType) (postcode version : string)
    (updated_str : string) (now : Q) (ip : string)
    (g : refresh_state) (p : Panel)
    : outcome * list string * refresh_state * Panel :=
  if rate_limited g now then (Returns, [], g, p)
  else
    let g1 := {| _last_full_refresh := _last_full_refresh g;
                 _partial_count := _partial_count g;
                 _last_refresh_time := Some now |} in
    let footer := footer_text postcode version ip updated_str in
    let printed :=
      [newline +:+ "Waste Collection" +:+ newline] ++ terminal_body result_ ++
      [newline +:+ footer +:+ newline] in
    if negb (EPD_AVAILABLE m) || negb (epd2in13_V4 m)
    then (RaisesAttributeError, printed, g1, p)
    else
      match push (render result_ footer) now g1 p with
      | (Ok _, g2, p2) => (Returns, printed, g2, p2)
      | (Raise _, g2, p2) => (RaisesAttributeError, printed, g2, p2)
      end.

(** The calls of one update, in order: a full one or a partial one *)
Definition panel_script (full : bool) (image : list text_at) : list epd_call :=
  if full then
    [EPD; Init (if has_FULL_UPDATE then Some FULL_UPDATE else None);
     GetBuffer image; Display image; Sleep]
  else
    [EPD;
     Init (if has_PART_UPDATE then Some PART_UPDATE
           else if has_PARTIAL_UPDATE then Some PARTIAL_UPDATE else None);
     GetBuffer image;
     if has_displayPartial then DisplayPartial image else Display image;
     Sleep].

(** One call of [show_result] with its arguments and what the
    environment answers during it *)
Record request : Type := {
  req_result : ResultType;
  req_postcode : string;
  req_version : string;
  req_updated : string;
  req_now : Q;
  req_ip : string
}.

(** A caller that calls [show_result] again and again, whatever the
    outcome of each call *)
Fixpoint show_all (rs : list request) (g : refresh_state) (p : Panel)
    : refresh_state * Panel :=
  match rs with
  | [] => (g, p)
  | r :: rs' =>
      let '(_, _, g', p') :=
        show_result (req_result r) (req_postcode r) (req_version r) (req_updated r)
                    (req_now r) (req_ip r) g p in
      show_all rs' g' p'
  end.

(** A row of the panel agrees with a line of the terminal: the line is
    the label of the row, blanks, and the value of the row. *)
Definition same_text (row : string * string) (line : string) : Prop :=
  exists pad,
    line = row.1 +:+ pad +:+ row.2 /\ Py.all_chars (Ascii.eqb " ") pad = true.

Definition labelled (row : string * string) : bool := negb (String.eqb row.1 "").

End Show.

End Output.

(** A panel that answers every call and records it, a font whose
    characters are seven pixels wide, and the module as it is loaded
    when the driver is imported and no font file exists *)
Definition recording_panel (c : Output.epd_call) (p : list Output.epd_call)
    : result unit * list Output.epd_call :=
  (Ok tt, p ++ [c]).

Definition seven_pixels (f : Output.font) (s : string) : Output.Q :=
  QArith_base.inject_Z (7 * Z.of_nat (String.length s)).

Definition sample_module : Output.module_globals :=
  {| Output.EPD_AVAILABLE := true; Output.epd2in13_V4 := true;
     Output.HEADER_FONT := Output.DefaultFont; Output.ROW_FONT := Output.DefaultFont;
     Output.FOOTER_FONT := Output.DefaultFont |}.

Definition sample_result : Output.ResultType :=
  Output.AsDict [("Rubbish", "Today"); ("Recycling", "Friday, 13th FEB");
                 ("Food", "Tomorrow")].

Definition sample_request (now : Z) : Output.request :=
  {| Output.req_result := sample_result; Output.req_postcode := "RG7 ";
     Output.req_version := "1-0"; Output.req_updated := "04 Nov     07:00";
     Output.req_now := QArith_base.inject_Z now; Output.req_ip := "192.168.0.7" |}.


(** * Properties *)

(** ** Strings *)

Section StringFacts.

Implicit Types s t u : string.

Lemma app_cons a s t : String a s +:+ t = String a (s +:+ t).
Proof. reflexivity. Qed.

Lemma app_empty_l s : "" +:+ s = s.
Proof. reflexivity. Qed.

Lemma app_empty_r s : s +:+ "" = s.
Proof. induction s as [|a s IH]; [reflexivity|]. now rewrite app_cons, IH. Qed.

Lemma app_assoc_s s t u : (s +:+ t) +:+ u = s +:+ (t +:+ u).
Proof. induction s as [|a s IH]; [reflexivity|]. now rewrite !app_cons, IH. Qed.

Lemma length_app_s s t :
  String.length (s +:+ t) = (String.length s + String.length t)%nat.
Proof. induction s as [|a s IH]; [reflexivity|]. rewrite app_cons. simpl. now rewrite IH. Qed.

Lemma take_app_length s t : Py.take (String.length s) (s +:+ t) = s.
Proof. induction s as [|a s IH]; [now destruct t|]. rewrite app_cons. simpl. now rewrite IH. Qed.

Lemma all_chars_app c s t :
  Py.all_chars c (s +:+ t) = Py.all_chars c s && Py.all_chars c t.
Proof.
  induction s as [|a s IH]; [reflexivity|].
  rewrite app_cons. simpl. rewrite IH. now rewrite andb_assoc.
Qed.

Lemma all_chars_take c n s : Py.all_chars c s = true -> Py.all_chars c (Py.take n s) = true.
Proof.
  revert n. induction s as [|a s IH]; intros [|n] H; try reflexivity.
  simpl in *. apply andb_true_iff in H as [Ha Hs]. now rewrite Ha, IH.
Qed.

Lemma all_chars_weaken (c c' : ascii -> bool) s :
  (forall a, c a = true -> c' a = true) ->
  Py.all_chars c s = true -> Py.all_chars c' s = true.
Proof.
  intros Hc. induction s as [|a s IH]; [reflexivity|]. simpl.
  intros H. apply andb_true_iff in H as [Ha Hs]. now rewrite (Hc _ Ha), IH.
Qed.

End StringFacts.

(** ** The matcher finds only matches *)

Section Soundness.

Context {A : Type}.

Lemma strip_prefix_app t s s' : strip_prefix t s = Some s' -> s = t +:+ s'.
Proof.
  revert s. induction t as [|a t IH]; intros [|b s] H; simpl in H; try discriminate.
  - now inversion H.
  - now inversion H.
  - destruct (Ascii.eqb_spec a b) as [->|]; [|discriminate].
    rewrite app_cons. f_equal. now apply IH.
Qed.

Lemma rep_sound c lo hi p s (k : nat -> string -> option A) x :
  rep c lo hi p s k = Some x ->
  exists w rest,
    s = w +:+ rest /\ Py.all_chars c w = true /\
    (lo <= String.length w)%nat /\ within hi (String.length w) /\
    k (p + String.length w)%nat rest = Some x.
Proof.
  revert lo hi p.
  induction s as [|a s IH]; intros lo hi p H.
  - simpl in H. destruct lo; [|discriminate].
    exists "", "". simpl. rewrite Nat.add_0_r.
    repeat split; auto. destruct hi; simpl; lia.
  - simpl in H.
    assert (Hstop :
              match lo with O => k p (String a s) | S _ => None end = Some x ->
              exists w rest,
                String a s = w +:+ rest /\ Py.all_chars c w = true /\
                (lo <= String.length w)%nat /\ within hi (String.length w) /\
                k (p + String.length w)%nat rest = Some x).
    { intros H0. destruct lo; [|discriminate].
      exists "", (String a s). simpl. rewrite Nat.add_0_r.
      repeat split; auto. destruct hi; simpl; lia. }
    destruct (c a) eqn:Hca; simpl in H; [|now apply Hstop].
    destruct (may_take hi) eqn:Hhi; [|now apply Hstop].
    destruct (rep c (Nat.pred lo) (one_less hi) (S p) s k) eqn:Hrec; simpl in H;
      [|now apply Hstop].
    inversion H; subst a0; clear H.
    apply IH in Hrec as (w & rest & -> & Hw & Hlo & Hwithin & Hk).
    exists (String a w), rest. rewrite app_cons. simpl. rewrite Hca, Hw.
    repeat split; auto.
    + lia.
    + destruct hi as [[|h]|]; simpl in *; try discriminate; try lia.
    + now rewrite Nat.add_succ_r.
Qed.

Lemma exec_sound r :
  forall p s g (k : @cont A) (x : A),
    exec r p s g k = Some x ->
    exists w rest g',
      s = w +:+ rest /\ matches r p w rest g' /\
      k (p + String.length w)%nat rest (g ++ g') = Some x.
Proof.
  induction r as [t|c lo hi|r1 IH1 r2 IH2|r1 IH1 r2 IH2|r IH| |];
    intros p s g k x H; simpl in H.
  - destruct (strip_prefix t s) as [s'|] eqn:Hp; [|discriminate].
    apply strip_prefix_app in Hp as ->.
    exists t, s', []. rewrite app_nil_r. simpl. auto.
  - apply rep_sound in H as (w & rest & -> & Hw & Hlo & Hhi & Hk).
    exists w, rest, []. rewrite app_nil_r. simpl. auto 6.
  - apply IH1 in H as (w1 & rest1 & g1 & -> & Hm1 & H).
    apply IH2 in H as (w2 & rest & g2 & -> & Hm2 & H).
    exists (w1 +:+ w2), rest, (g1 ++ g2).
    rewrite app_assoc_s, length_app_s, Nat.add_assoc, app_assoc.
    split; [reflexivity|]. split; [|exact H].
    simpl. exists w1, w2, g1, g2. auto.
  - destruct (exec r1 p s g k) eqn:H1; simpl in H.
    + inversion H; subst a. apply IH1 in H1 as (w & rest & g' & -> & Hm & Hk).
      exists w, rest, g'. simpl. auto.
    + apply IH2 in H as (w & rest & g' & -> & Hm & Hk).
      exists w, rest, g'. simpl. auto.
  - apply IH in H as (w & rest & g1 & -> & Hm & Hk). simpl in Hk.
    replace (p + String.length w - p)%nat with (String.length w) in Hk by lia.
    rewrite take_app_length in Hk.
    exists w, rest, (w :: g1). simpl. eauto.
  - destruct (Nat.eqb_spec p 0) as [->|]; [|discriminate].
    exists "", s, []. rewrite app_nil_r. simpl. auto.
  - destruct (at_eol s) eqn:He; [|discriminate].
    exists "", s, []. rewrite app_nil_r, Nat.add_0_r. simpl.
    repeat split; auto.
    destruct s as [|a [|b s]]; simpl in He; try discriminate; auto.
    right. now destruct (Ascii.eqb_spec a "010") as [->|].
Qed.

End Soundness.

Lemma match_at_sound r p s g :
  match_at r p s = Some g ->
  exists w rest, s = w +:+ rest /\ matches r p w rest g.
Proof.
  intros H. apply exec_sound in H as (w & rest & g' & -> & Hm & Hk).
  simpl in Hk. inversion Hk; subst. eauto.
Qed.

Lemma search_from_sound r p s g :
  search_from r p s = Some g ->
  exists pre w rest,
    s = pre +:+ w +:+ rest /\ matches r (p + String.length pre)%nat w rest g.
Proof.
  revert p. induction s as [|a s IH]; intros p H; simpl in H.
  - destruct (match_at r p "") eqn:Hm; simpl in H; [|discriminate].
    inversion H; subst. apply match_at_sound in Hm as (w & rest & Hs & Hm).
    exists "", w, rest. simpl. now rewrite Nat.add_0_r.
  - destruct (match_at r p (String a s)) eqn:Hm; simpl in H.
    + inversion H; subst. apply match_at_sound in Hm as (w & rest & Hs & Hm).
      exists "", w, rest. simpl. now rewrite Nat.add_0_r.
    + apply IH in H as (pre & w & rest & -> & Hm').
      exists (String a pre), w, rest. rewrite app_cons. simpl.
      now rewrite Nat.add_succ_r.
Qed.

(** ** The pattern of the raw date *)

Lemma not_empty_length s : (1 <= String.length s)%nat -> s <> "".
Proof. destruct s; simpl; [lia|discriminate]. Qed.

Lemma raw_date_re_sound raw g :
  re_match raw_date_re raw = Some g ->
  exists weekday day_str month,
    g = [weekday; day_str; month] /\ raw_date_shape raw weekday day_str month.
Proof.
  intros H. apply match_at_sound in H as (w & rest & -> & H).
  unfold raw_date_re, plus, times in H. simpl in H.
  destruct H as (w0 & w1 & g0 & g1 & -> & -> & (-> & -> & _) & H).
  destruct H as (wd & w2 & gwd & g2 & -> & -> & (gi & -> & Hwd) & H).
  destruct H as (b1 & w3 & gb1 & g3 & -> & -> & (Hb1 & Hl1 & _ & ->) & H).
  destruct H as (d & w4 & gd & g4 & -> & -> & (gj & -> & (Hd & Hd1 & Hd2 & ->)) & H).
  destruct H as (b2 & w5 & gb2 & g5 & -> & -> & (Hb2 & Hl2 & _ & ->) & H).
  destruct H as (m & w6 & gm & g6 & -> & -> & (gk & -> & (Hm & Hm1 & _ & ->)) & H).
  destruct H as (-> & -> & Hnl).
  assert (Hin : In wd weekdays /\ gi = []).
  { unfold weekdays. simpl.
    repeat (destruct Hwd as [Hwd | Hwd]); destruct Hwd as [-> ->]; auto 10. }
  destruct Hin as [Hin ->].
  exists wd, d, m. split; [reflexivity|].
  exists b1, b2, rest. rewrite app_empty_l, app_empty_r, !app_assoc_s.
  repeat split; auto using not_empty_length.
Qed.

Lemma digit_char_value a d :
  Py.is_digit a = true -> exists d', uint_of_char a (Some d) = Some d'.
Proof.
  destruct a as [[] [] [] [] [] [] [] []]; intros H; vm_compute in H;
    try discriminate H; simpl; eauto.
Qed.

Lemma digits_uint s :
  Py.all_chars Py.is_digit s = true -> exists d, NilEmpty.uint_of_string s = Some d.
Proof.
  induction s as [|a s IH]; simpl; [eauto|].
  intros H. apply andb_true_iff in H as [Ha Hs].
  destruct (IH Hs) as [d ->]. now apply digit_char_value.
Qed.

Lemma int_digits s :
  Py.all_chars Py.is_digit s = true -> s <> "" -> exists n, Py.int s = Ok n.
Proof.
  intros H Hne. destruct (digits_uint s H) as [d Hd].
  unfold Py.int. rewrite Hd. destruct s; [congruence|eauto].
Qed.

(** [format_collection_date] never raises, and it leaves alone every
    phrase its pattern does not match. *)
Lemma format_collection_date_cases raw :
  (re_match raw_date_re raw = None /\ format_collection_date raw = Ok raw) \/
  (exists weekday day_str month day,
     raw_date_shape raw weekday day_str month /\
     Py.int day_str = Ok day /\
     format_collection_date raw =
       Ok (weekday +:+ ", " +:+ Py.str day +:+ ordinal_suffix day +:+ " " +:+
           Py.upper (Py.take 3 month))).
Proof.
  unfold format_collection_date.
  destruct (re_match raw_date_re raw) as [g|] eqn:Hm; [right|left; auto].
  apply raw_date_re_sound in Hm as (wd & d & m & -> & Hshape).
  assert (Hd : exists n, Py.int d = Ok n).
  { destruct Hshape as (b1 & b2 & nl & _ & _ & _ & (Hd & Hd1 & _) & _).
    apply int_digits; auto using not_empty_length. }
  destruct Hd as [n Hn]. exists wd, d, m, n. rewrite Hn. simpl. auto.
Qed.

Lemma format_collection_date_total raw : exists out, format_collection_date raw = Ok out.
Proof.
  destruct (format_collection_date_cases raw) as [[_ H]|(wd & d & m & n & _ & _ & H)];
    rewrite H; eauto.
Qed.

(** ** The ordinal suffix and the canonical form *)

Lemma suffix_lookup k :
  int_dict_get [(1, "st"); (2, "nd"); (3, "rd")] k "th" =
  if 1 =? k then "st" else if 2 =? k then "nd" else if 3 =? k then "rd" else "th".
Proof. reflexivity. Qed.

Lemma not_teen day :
  ~ In day [11; 12; 13] -> (11 <=? day) && (day <=? 13) = false.
Proof.
  intros Hn. simpl in Hn. apply andb_false_iff.
  destruct (Z.leb_spec 11 day); [right|left; reflexivity]. apply Z.leb_gt. lia.
Qed.

Lemma ordinal_suffix_is_rule day : ordinal_suffix day = suffix_rule day.
Proof.
  unfold ordinal_suffix, suffix_rule.
  destruct (existsb (Z.eqb day) [11; 12; 13]) eqn:He.
  - apply existsb_exists in He as (x & Hx & Heq). apply Z.eqb_eq in Heq. subst x.
    destruct Hx as [<-|[<-|[<-|[]]]]; reflexivity.
  - rewrite not_teen, suffix_lookup.
    + destruct (Z.eqb_spec 1 (day mod 10)) as [<-|]; [reflexivity|].
      destruct (Z.eqb_spec 2 (day mod 10)) as [<-|]; [reflexivity|].
      destruct (Z.eqb_spec 3 (day mod 10)) as [<-|]; [reflexivity|].
      destruct (day mod 10) as [|q|q]; try reflexivity.
      destruct q as [[q|q|]|[q|q|]|]; try reflexivity; congruence.
    + intros Hin. assert (existsb (Z.eqb day) [11; 12; 13] = true); [|congruence].
      apply existsb_exists. exists day. split; [exact Hin|apply Z.eqb_refl].
Qed.

(** C5. For every day from 1 to 31 the ordinal suffix the extractor
    computes is "th" for 11, 12 and 13; otherwise "st", "nd" or "rd" when
    the day ends in 1, 2 or 3, and "th" in every other case. *)
Theorem ordinal_suffix_spec (day : Z) :
  1 <= day <= 31 ->
  (In day [11; 12; 13] -> ordinal_suffix day = "th") /\
  (~ In day [11; 12; 13] ->
     (day mod 10 = 1 -> ordinal_suffix day = "st") /\
     (day mod 10 = 2 -> ordinal_suffix day = "nd") /\
     (day mod 10 = 3 -> ordinal_suffix day = "rd") /\
     (~ In (day mod 10) [1; 2; 3] -> ordinal_suffix day = "th")).
Proof.
  intros _. unfold ordinal_suffix. split.
  - intros [<-|[<-|[<-|[]]]]; reflexivity.
  - intros Hn. rewrite (not_teen _ Hn), suffix_lookup. repeat split.
    + intros ->. reflexivity.
    + intros ->. reflexivity.
    + intros ->. reflexivity.
    + intros Hm. simpl in Hm.
      destruct (Z.eqb_spec 1 (day mod 10)); [lia|].
      destruct (Z.eqb_spec 2 (day mod 10)); [lia|].
      destruct (Z.eqb_spec 3 (day mod 10)); [lia|reflexivity].
Qed.

Lemma ordinal_suffix_spec_witness :
  ordinal_suffix 12 = "th" /\ ordinal_suffix 22 = "nd" /\ ordinal_suffix 30 = "th".
Proof.
  destruct (ordinal_suffix_spec 12 ltac:(lia)) as [H12 _].
  destruct (ordinal_suffix_spec 22 ltac:(lia)) as [_ H22].
  destruct (ordinal_suffix_spec 30 ltac:(lia)) as [_ H30].
  split; [|split].
  - apply H12. simpl. auto.
  - apply H22; [|reflexivity]. intros [H|[H|[H|[]]]]; discriminate H.
  - apply H30; intros [H|[H|[H|[]]]]; discriminate H.
Defined.

Lemma in_days_1_31 day : 1 <= day <= 31 -> In day days_1_31.
Proof.
  intros H. unfold days_1_31. rewrite <- (Z2Nat.id day) by lia.
  apply in_map, in_seq. lia.
Qed.

Lemma every_phrase_formats :
  forallb (fun wd => forallb (fun d => forallb (phrase_formats wd d) months)
                             days_1_31) weekdays = true.
Proof. vm_compute. reflexivity. Qed.

(** C6. A phrase of the grammar "<Weekday> <Day> <Month>" is turned into
    "<Weekday>, <Day><Suffix> <MON>", with the ordinal suffix of the day
    and the first three letters of the month in capitals; and the page's
    recycling block, with the date text "Saturday 17 January", gives the
    record {"Recycling": "Saturday, 17th JAN"}. *)
Theorem format_collection_date_canonical (weekday : string) (day : Z) (month mon : string) (n : Z) :
  In weekday weekdays -> 1 <= day <= 31 -> In (month, mon, n) months ->
  format_collection_date (raw_phrase weekday day month)
    = Ok (weekday +:+ ", " +:+ Py.str day +:+ suffix_rule day +:+ " " +:+ mon) /\
  mon = Py.upper (Py.take 3 month) /\
  forall html,
    parse_to_json (fun _ => Ok (document [recycling_block])) html
      = [("Recycling", "Saturday, 17th JAN")].
Proof.
  intros Hwd Hday Hm. split; [|split].
  - pose proof every_phrase_formats as H.
    rewrite forallb_forall in H. specialize (H _ Hwd).
    rewrite forallb_forall in H. specialize (H _ (in_days_1_31 _ Hday)).
    rewrite forallb_forall in H. specialize (H _ Hm).
    unfold phrase_formats in H. simpl in H.
    destruct (format_collection_date (raw_phrase weekday day month)) as [out|]; [|discriminate].
    apply String.eqb_eq in H. now subst out.
  - unfold months in Hm. simpl in Hm.
    repeat (destruct Hm as [Hm|Hm]; [inversion Hm; reflexivity|]). destruct Hm.
  - intros html. vm_compute. reflexivity.
Qed.

Lemma format_collection_date_canonical_witness :
  format_collection_date "Saturday 17 January" = Ok "Saturday, 17th JAN".
Proof.
  apply (format_collection_date_canonical "Saturday" 17 "January" "JAN" 1).
  - simpl. auto 10.
  - lia.
  - simpl. auto.
Defined.

(** ** Phrases outside the grammar *)




(** ** The extractor *)

Section DictFacts.

Context {V : Type}.
Implicit Types d : list (string * V).

Lemma keys_dict_set k v d key :
  In key (keys (dict_set k v d)) <-> key = k \/ In key (keys d).
Proof.
  unfold keys. induction d as [|[k0 w] d IH]; simpl.
  - intuition.
  - destruct (String.eqb_spec k0 k) as [->|Hne]; simpl; [intuition|].
    rewrite IH. intuition.
Qed.

Lemma NoDup_dict_set k v d : NoDup (keys d) -> NoDup (keys (dict_set k v d)).
Proof.
  induction d as [|[k0 w] d IH]; simpl; intros Hnd.
  - apply NoDup_singleton.
  - apply NoDup_cons in Hnd as [Hnotin Hnd'].
    destruct (String.eqb_spec k0 k) as [->|Hne]; simpl.
    + apply NoDup_cons. auto.
    + apply NoDup_cons. split; [|auto].
      rewrite list_elem_of_In. intros Hin.
      apply (keys_dict_set k v d k0) in Hin as [->|Hin]; [congruence|].
      apply Hnotin, list_elem_of_In, Hin.
Qed.

Lemma dict_set_not_nil k v d : dict_set k v d <> [].
Proof. destruct d as [|[k0 w] d]; simpl; [|destruct (String.eqb k0 k)]; discriminate. Qed.

End DictFacts.

Lemma map_classes_keys class_str date_el m :
  forall acc,
  exists r,
    map_classes class_str date_el m acc = Ok r /\
    (forall key,
       In key (keys r) <->
       In key (keys acc) \/
       In key (map snd (List.filter (fun x => Py.contains (fst x) class_str) m))) /\
    (NoDup (keys acc) -> NoDup (keys r)).
Proof.
  induction m as [|[css key0] m IH]; intros acc; simpl.
  - exists acc. intuition.
  - destruct (Py.contains css class_str) eqn:Hc.
    + destruct (format_collection_date_total (get_text_strip date_el)) as [out ->].
      simpl. destruct (IH (dict_set key0 out acc)) as (r & -> & Hk & Hnd).
      exists r. split; [reflexivity|]. split.
      * intros key. rewrite Hk, keys_dict_set. simpl. intuition.
      * intros H. now apply Hnd, NoDup_dict_set.
    + destruct (IH acc) as (r & -> & Hk & Hnd). exists r. auto.
Qed.

Lemma each_block_keys blocks :
  forall acc,
  exists r,
    each_block blocks acc = Ok r /\
    (forall key,
       In key (keys r) <->
       In key (keys acc) \/ exists block, In block blocks /\ In key (entry_keys block)) /\
    (NoDup (keys acc) -> NoDup (keys r)).
Proof.
  induction blocks as [|block blocks IH]; intros acc; cbn [each_block].
  - exists acc. split; [reflexivity|]. split; [|auto].
    intros key. split; [auto|]. intros [H|(b & [] & _)]. exact H.
  - assert (Hskip : entry_keys block = [] ->
              exists r,
                each_block blocks acc = Ok r /\
                (forall key,
                   In key (keys r) <->
                   In key (keys acc) \/
                   exists b, (block = b \/ In b blocks) /\ In key (entry_keys b)) /\
                (NoDup (keys acc) -> NoDup (keys r))).
    { intros He. destruct (IH acc) as (r & -> & Hk & Hnd). exists r.
      split; [reflexivity|]. split; [|exact Hnd].
      intros key. rewrite Hk. split.
      - intros [H|(b & Hb & Hin)]; eauto.
      - intros [H|(b & [<-|Hb] & Hin)]; eauto. rewrite He in Hin. destruct Hin. }
    unfold entry_keys, has_date_el, marker_keys in *.
    destruct (select_one rubbish_collection_difs_ block) as [header|] eqn:Hh;
      [|apply Hskip; now destruct (select_one datetext block)].
    destruct (select_one datetext block) as [date_el|] eqn:Hd; [|now apply Hskip].
    clear Hskip.
    destruct (map_classes_keys (Py.join " " (get_class header)) date_el mapping acc)
      as (r1 & -> & Hk1 & Hnd1).
    simpl. destruct (IH r1) as (r & -> & Hk & Hnd). exists r.
    split; [reflexivity|]. split; [|auto].
    intros key. rewrite Hk, Hk1. split.
    + intros [[H|H]|(b & Hb & Hin)]; eauto.
      right. exists block. rewrite Hh, Hd. auto.
    + intros [H|(b & [<-|Hb] & Hin)]; eauto.
      rewrite Hh, Hd in Hin. auto.
Qed.

Lemma entry_keys_categories block key : In key (entry_keys block) -> In key categories.
Proof.
  unfold entry_keys, marker_keys.
  destruct (has_date_el block); [|intros []].
  destruct (select_one rubbish_collection_difs_ block); [|intros []].
  intros H. apply in_map_iff in H as ([css k] & <- & H).
  apply filter_In in H as [H _]. unfold mapping in H. simpl in H.
  unfold categories. simpl.
  destruct H as [H|[H|[H|[]]]]; inversion H; auto.
Qed.

(** What [parse_to_json] returns, case by case. *)
Lemma parse_to_json_cases BeautifulSoup html :
  (exists e, BeautifulSoup html = Raise e /\
             parse_to_json BeautifulSoup html = [("Error", "Exception")]) \/
  (exists soup, BeautifulSoup html = Ok soup /\
     let blocks := select rubbish_date_wrap soup in
     (blocks = [] /\ parse_to_json BeautifulSoup html = [("Error", "Invalid HTML")]) \/
     (blocks <> [] /\ (forall block, In block blocks -> entry_keys block = []) /\
      parse_to_json BeautifulSoup html = [("Error", "JSON Mapping")]) \/
     (exists r, parse_to_json BeautifulSoup html = r /\ r <> [] /\ NoDup (keys r) /\
        forall key,
          In key (keys r) <->
          exists block, In block blocks /\ In key (entry_keys block))).
Proof.
  unfold parse_to_json, parse_to_json_try.
  destruct (BeautifulSoup html) as [soup|e] eqn:Hs; simpl; [right|left; eauto].
  exists soup. split; [reflexivity|].
  destruct (select rubbish_date_wrap soup) as [|b bs] eqn:Hb; [left; auto|right].
  destruct (each_block_keys (b :: bs) []) as (r & Hr & Hk & Hnd). rewrite Hr. simpl.
  assert (Hk' : forall key,
            In key (keys r) <-> exists block, In block (b :: bs) /\ In key (entry_keys block)).
  { intros key. rewrite Hk. simpl. intuition. }
  destruct r as [|kv r].
  - left. split; [discriminate|]. split; [|reflexivity].
    intros block Hin. destruct (entry_keys block) as [|key ks] eqn:He; [reflexivity|].
    destruct (proj2 (Hk' key)). exists block. rewrite He. simpl. auto.
  - right. exists (kv :: r). repeat split; [discriminate| |apply Hk'|apply Hk'].
    apply Hnd, NoDup_nil_2.
Qed.





(** ** Error records *)

(** A record of the extractor that has the key "Error" is an error
    record with one of three codes. *)
Lemma parse_to_json_error_code BeautifulSoup html :
  In "Error" (keys (parse_to_json BeautifulSoup html)) ->
  exists code,
    parse_to_json BeautifulSoup html = [("Error", code)] /\
    In code ["Invalid HTML"; "JSON Mapping"; "Exception"].
Proof.
  intros Herr.
  destruct (parse_to_json_cases BeautifulSoup html)
    as [(e & _ & ->)|(soup & _ & [[_ ->]|[(_ & _ & ->)|(r & Hr & _ & _ & Hk)]])].
  - eexists. split; [reflexivity|]. simpl. auto.
  - eexists. split; [reflexivity|]. simpl. auto.
  - eexists. split; [reflexivity|]. simpl. auto.
  - rewrite Hr in Herr. destruct (proj1 (Hk _) Herr) as (blk & _ & Hin).
    apply entry_keys_categories in Hin.
    unfold categories in Hin. simpl in Hin.
    destruct Hin as [H|[H|[H|[]]]]; discriminate H.
Qed.

(** C1, as the specification has it, fails: when the parser raises, the
    extractor reports the code "Exception", which is none of the four. *)
Lemma extractor_fallback_code_not_listed :
  parse_to_json (fun _ => Raise ParserRejectedMarkup) "" = [("Error", "Exception")] /\
  ~ In "Exception" spec_codes.
Proof.
  split; [reflexivity|].
  unfold spec_codes. intros [H|[H|[H|[H|[]]]]]; discriminate H.
Qed.

(** C1, amended. An error record of the scraper is {"Error": code} with
    the code "Browser" or "Unknown"; a record of the extractor that has
    the key "Error" is {"Error": code} with the code "Invalid HTML",
    "JSON Mapping" or "Exception"; the generic fallback of the extractor
    reports "Exception". *)
Theorem error_record_codes :
  (forall (Browser : Type) playwright url postcode address_value (b b' : Browser) d,
     scrape_url_get_html Browser playwright url postcode address_value b = (ErrorDict d, b') ->
     exists code, d = [("Error", code)] /\ In code ["Browser"; "Unknown"]) /\
  (forall BeautifulSoup html,
     In "Error" (keys (parse_to_json BeautifulSoup html)) ->
     exists code,
       parse_to_json BeautifulSoup html = [("Error", code)] /\
       In code ["Invalid HTML"; "JSON Mapping"; "Exception"]) /\
  (forall BeautifulSoup html e,
     BeautifulSoup html = Raise e ->
     parse_to_json BeautifulSoup html = [("Error", "Exception")]).
Proof.
  split; [|split].
  - intros Browser playwright url postcode address_value b b' d.
    unfold scrape_url_get_html.
    destruct (scrape_try Browser playwright url postcode address_value b) as [[html|e] b0].
    + discriminate.
    + destruct e; intros H; inversion H; subst; eexists; split; try reflexivity;
        simpl; auto.
  - apply parse_to_json_error_code.
  - intros BeautifulSoup html e He. unfold parse_to_json, parse_to_json_try.
    now rewrite He.
Qed.

Lemma error_record_codes_witness :
  parse_to_json (fun _ => Raise ParserRejectedMarkup) "<" = [("Error", "Exception")].
Proof.
  apply (proj2 (proj2 error_record_codes) _ "<" ParserRejectedMarkup). reflexivity.
Defined.

(** ** The normalizer and the heap *)

Lemma beautify_value_other now Y v :
  (forall s, v <> VStr s) -> beautify_value now Y v = Ok v.
Proof. destruct v; try reflexivity. intros H. now destruct (H s). Qed.

Lemma dict_set_fresh {V : Type} key (v : V) d :
  ~ In key (keys d) -> dict_set key v d = d ++ [(key, v)].
Proof.
  induction d as [|[k w] d IH]; simpl; intros Hnot; [reflexivity|].
  destruct (String.eqb_spec k key) as [->|Hne]; [tauto|].
  rewrite IH; [reflexivity|tauto].
Qed.

Lemma setitem_other output key v (h : heap) l :
  l <> output -> setitem output key v h !! l = h !! l.
Proof.
  intros Hne. unfold setitem.
  destruct (h !! output) as [[items|elems]|]; try reflexivity.
  now rewrite lookup_insert_ne.
Qed.

Lemma setitem_dict output key v (h : heap) items :
  h !! output = Some (Dict items) ->
  setitem output key v h !! output = Some (Dict (dict_set key v items)).
Proof. intros H. unfold setitem. rewrite H. apply lookup_insert_eq. Qed.

(** The loop writes to the output dictionary only. *)
Lemma beautify_loop_frame now Y output items :
  forall (h : heap) l,
    l <> output -> (beautify_loop now Y items output h).2 !! l = h !! l.
Proof.
  induction items as [|[key v] items IH]; intros h l Hne; simpl; [reflexivity|].
  destruct (beautify_value now Y v) as [v'|e]; simpl; [|reflexivity].
  rewrite IH by exact Hne. now apply setitem_other.
Qed.

Lemma beautify_loop_ok now Y output items :
  forall (h h' : heap) acc u,
    h !! output = Some (Dict acc) ->
    NoDup (keys acc ++ keys items) ->
    beautify_loop now Y items output h = (Ok u, h') ->
    exists done,
      h' !! output = Some (Dict (acc ++ done)) /\
      Forall2 (entry_done now Y) items done.
Proof.
  induction items as [|[key v] items IH]; intros h h' acc u Hout Hnd Hloop;
    simpl in Hloop.
  - inversion Hloop; subst. exists []. rewrite app_nil_r. auto.
  - destruct (beautify_value now Y v) as [v'|e] eqn:Hv; [|discriminate].
    assert (Hfresh : ~ In key (keys acc)).
    { simpl in Hnd. apply NoDup_app in Hnd as (_ & Hdisj & _).
      intros Hin. apply (Hdisj key); [now apply list_elem_of_In|]. constructor. }
    apply IH with (acc := acc ++ [(key, v')]) in Hloop.
    + destruct Hloop as (done & Hh' & Hall).
      exists ((key, v') :: done). rewrite <- app_assoc in Hh'. split; [exact Hh'|].
      constructor; [split; [reflexivity|exact Hv]|exact Hall].
    + rewrite <- (dict_set_fresh key v' acc Hfresh). now apply setitem_dict.
    + unfold keys in *. rewrite map_app, <- app_assoc. exact Hnd.
Qed.

Lemma entries_keys now Y items done :
  Forall2 (entry_done now Y) items done -> keys done = keys items.
Proof.
  induction 1 as [|kv kv' items done [Hk _] _ IH]; [reflexivity|].
  unfold keys in *. simpl. now rewrite IH, Hk.
Qed.

Lemma entries_in now Y items done key v :
  Forall2 (entry_done now Y) items done ->
  In (key, v) items ->
  exists v', beautify_value now Y v = Ok v' /\ In (key, v') done.
Proof.
  induction 1 as [|kv kv' items done [Hk Hv] _ IH]; intros Hin; [destruct Hin|].
  destruct Hin as [->|Hin].
  - exists kv'.2. split; [exact Hv|]. left. destruct kv'. simpl in *. now subst.
  - destruct (IH Hin) as (v' & Hv' & Hin'). exists v'. split; [exact Hv'|now right].
Qed.

Lemma alloc_fresh o (h : heap) : h !! (alloc o h).1 = None.
Proof. unfold alloc. simpl. apply not_elem_of_dom, is_fresh. Qed.

(** Objects that exist before the call are the same after it. *)
Lemma beautify_try_frame now v (h : heap) l o :
  h !! l = Some o -> (beautify_try now v h).2 !! l = Some o.
Proof.
  intros Hl. unfold beautify_try.
  destruct (as_dict h v) as [items|]; [|exact Hl].
  pose proof (alloc_fresh (Dict []) h) as Hfresh.
  unfold alloc in *. simpl in *.
  set (output := fresh (dom h)) in *.
  assert (Hne : l <> output) by congruence.
  pose proof (beautify_loop_frame now (year now) output items
                (<[output := Dict []]> h) l Hne) as Hframe.
  destruct (beautify_loop now (year now) items output (<[output := Dict []]> h))
    as [[u|e] h2]; simpl in *; rewrite Hframe, lookup_insert_ne; auto.
Qed.

(** C9, as the specification has it, fails: an error record is a
    dictionary, so it is no input that is not a mapping, and what
    [beautify] returns for it is not the object it was given but a new
    dictionary. *)
Lemma beautify_error_record_new_object :
  as_dict error_heap (VRef 0%nat) = Some [("Error", VStr "Invalid HTML")] /\
  (beautify (Date 2025 12 20) (VRef 0%nat) error_heap).1 = VRef 1%nat /\
  (beautify (Date 2025 12 20) (VRef 0%nat) error_heap).1 <> VRef 0%nat.
Proof.
  split; [vm_compute; reflexivity|]. split; [vm_compute; reflexivity|].
  vm_compute. discriminate.
Qed.

(** C9, amended. When the input is not a mapping, or when an exception
    occurs inside the [try] block, [beautify] returns the very input it
    was given, every object that existed before the call is as it was
    (the input dictionary included, so nothing partial shows), and for an
    input that is not a mapping the heap is untouched.  An error record
    is a mapping: for it [beautify] returns a new dictionary, which for
    the error codes of the pipeline has the key and the code of the
    record, and the record itself is as it was. *)
Theorem beautify_fallback (now : date) (v : value) (h : heap) :
  (as_dict h v = None \/ (exists e, (beautify_try now v h).1 = Raise e) ->
   (beautify now v h).1 = v /\
   (forall l o, h !! l = Some o -> (beautify now v h).2 !! l = Some o) /\
   (as_dict h v = None -> (beautify now v h).2 = h)) /\
  (forall l code,
     v = VRef l -> h !! l = Some (Dict [("Error", VStr code)]) ->
     In code ["Browser"; "Unknown"; "Invalid HTML"; "JSON Mapping"; "Exception"] ->
     exists l',
       (beautify now v h).1 = VRef l' /\ l' <> l /\ h !! l' = None /\
       (beautify now v h).2 !! l' = Some (Dict [("Error", VStr code)]) /\
       (beautify now v h).2 !! l = Some (Dict [("Error", VStr code)])).
Proof.
  split.
  - intros Hcase. split; [|split].
    + unfold beautify. destruct Hcase as [Hnone|[e He]].
      * unfold beautify_try. now rewrite Hnone.
      * destruct (beautify_try now v h) as [[w|e'] h']; simpl in *; [discriminate|reflexivity].
    + intros l o Hl. pose proof (beautify_try_frame now v h l o Hl) as Hframe.
      unfold beautify. now destruct (beautify_try now v h) as [[w|e'] h'].
    + intros Hnone. unfold beautify, beautify_try. now rewrite Hnone.
  - intros l code -> Hl Hcode.
    assert (Hvalue : beautify_value now (year now) (VStr code) = Ok (VStr code)).
    { simpl in Hcode.
      destruct Hcode as [<-|[<-|[<-|[<-|[<-|[]]]]]]; vm_compute; reflexivity. }
    pose proof (alloc_fresh (Dict []) h) as Hfresh.
    unfold beautify, beautify_try, as_dict. rewrite Hl.
    unfold alloc in *. cbn [fst snd] in Hfresh. cbn [beautify_loop].
    set (output := fresh (dom h)) in *. rewrite Hvalue.
    unfold setitem. rewrite lookup_insert_eq. cbn [dict_set fst snd].
    assert (Hne : output <> l) by congruence.
    exists output. split; [reflexivity|]. split; [exact Hne|]. split; [exact Hfresh|].
    split; [apply lookup_insert_eq|]. now rewrite !lookup_insert_ne.
Qed.

(** What the [try] block leaves when it ends normally on a dictionary. *)
Lemma beautify_try_ok now (h h' : heap) l items out_v :
  h !! l = Some (Dict items) ->
  NoDup (keys items) ->
  beautify_try now (VRef l) h = (Ok out_v, h') ->
  exists l' done,
    out_v = VRef l' /\ h !! l' = None /\ h' !! l' = Some (Dict done) /\
    Forall2 (entry_done now (year now)) items done.
Proof.
  intros Hl Hnd Htry.
  unfold beautify_try in Htry. simpl in Htry. rewrite Hl in Htry.
  pose proof (alloc_fresh (Dict []) h) as Hfresh.
  unfold alloc in *. simpl in *.
  set (output := fresh (dom h)) in *.
  destruct (beautify_loop now (year now) items output (<[output := Dict []]> h))
    as [[u|e] h2] eqn:Hloop; [|discriminate].
  inversion Htry; subst out_v h2.
  apply beautify_loop_ok with (acc := []) in Hloop;
    [|apply lookup_insert_eq|exact Hnd].
  destruct Hloop as (done & Hdone & Hall). simpl in Hdone.
  exists output, done. auto.
Qed.

(** An entry that the loop body leaves as it is, is in the result of
    [beautify], whether the call ends normally or falls back. *)
Lemma beautify_keeps_entry now (h : heap) l items key v :
  h !! l = Some (Dict items) ->
  NoDup (keys items) ->
  In (key, v) items ->
  beautify_value now (year now) v = Ok v ->
  exists out,
    as_dict (beautify now (VRef l) h).2 (beautify now (VRef l) h).1 = Some out /\
    In (key, v) out.
Proof.
  intros Hl Hnd Hin Hv.
  pose proof (beautify_try_frame now (VRef l) h l _ Hl) as Hframe.
  unfold beautify.
  destruct (beautify_try now (VRef l) h) as [[out_v|e] h'] eqn:Htry; simpl in *.
  - destruct (beautify_try_ok now h h' l items out_v Hl Hnd Htry)
      as (l' & done & -> & _ & Hdone & Hall).
    exists done. simpl. rewrite Hdone. split; [reflexivity|].
    destruct (entries_in now (year now) items done key v Hall Hin) as (v' & Hv' & Hin').
    rewrite Hv in Hv'. now inversion Hv'; subst.
  - exists items. rewrite Hframe. auto.
Qed.

(** C10. When the loop of [beautify] ends without an exception on a
    dictionary, the result is a new dictionary with the keys of the
    input, in the same order; values that are not strings are carried
    over; and every object that existed before the call, the input
    dictionary included, is as it was. *)
Theorem beautify_keys_and_frame (now : date) (h h' : heap) (l : loc)
    (items : list (string * value)) (out_v : value) :
  h !! l = Some (Dict items) ->
  NoDup (keys items) ->
  beautify_try now (VRef l) h = (Ok out_v, h') ->
  exists l' out,
    out_v = VRef l' /\ beautify now (VRef l) h = (VRef l', h') /\
    h !! l' = None /\ h' !! l' = Some (Dict out) /\
    keys out = keys items /\
    (forall key v, In (key, v) items -> (forall s, v <> VStr s) -> In (key, v) out) /\
    h' !! l = Some (Dict items) /\
    (forall l0 o, h !! l0 = Some o -> h' !! l0 = Some o).
Proof.
  intros Hl Hnd Htry.
  assert (Hframe : forall l0 o, h !! l0 = Some o -> h' !! l0 = Some o).
  { intros l0 o H0. pose proof (beautify_try_frame now (VRef l) h l0 o H0) as Hf.
    now rewrite Htry in Hf. }
  assert (Hb : beautify now (VRef l) h = (out_v, h')).
  { unfold beautify. now rewrite Htry. }
  destruct (beautify_try_ok now h h' l items out_v Hl Hnd Htry)
    as (l' & done & -> & Hfresh & Hdone & Hall).
  exists l', done. repeat split; auto.
  - eapply entries_keys, Hall.
  - intros key v Hin Hnot.
    destruct (entries_in now (year now) items done key v Hall Hin) as (v' & Hv & Hin').
    rewrite beautify_value_other in Hv by exact Hnot. now inversion Hv; subst.
Qed.

Lemma beautify_fallback_witness :
  (beautify (Date 2024 12 20) (VRef 0%nat) leap_heap).1 = VRef 0%nat /\
  (beautify (Date 2024 12 20) (VRef 0%nat) leap_heap).2 !! 0%nat = Some (Dict leap_items).
Proof.
  destruct (proj1 (beautify_fallback (Date 2024 12 20) (VRef 0%nat) leap_heap))
    as (Hv & Hframe & _).
  - right. exists ValueError. vm_compute. reflexivity.
  - split; [exact Hv|]. apply Hframe. vm_compute. reflexivity.
Defined.

Lemma beautify_keys_and_frame_witness :
  exists l' out,
    beautify (Date 2025 12 20) (VRef 0%nat) sample_heap
      = (VRef l', (beautify_try (Date 2025 12 20) (VRef 0%nat) sample_heap).2) /\
    keys out = ["Rubbish"; "Collections"] /\
    In ("Collections", VInt 3) out.
Proof.
  destruct (beautify_keys_and_frame (Date 2025 12 20) sample_heap
              (beautify_try (Date 2025 12 20) (VRef 0%nat) sample_heap).2
              0%nat sample_items (VRef 1%nat))
    as (l' & out & _ & Hb & _ & _ & Hkeys & Hother & _).
  - vm_compute. reflexivity.
  - unfold sample_items, keys. simpl.
    repeat (apply NoDup_cons; split; [rewrite list_elem_of_In; simpl; intuition discriminate|]).
    apply NoDup_nil_2.
  - vm_compute. reflexivity.
  - exists l', out. split; [exact Hb|]. split; [exact Hkeys|].
    apply Hother; [simpl; auto|discriminate].
Defined.

(** ** The pattern of the council format *)

Lemma council_re_sound text g :
  re_search council_re text = Some g ->
  exists weekday day suffix month,
    g = [weekday; day; suffix; month] /\ council_shape text weekday day suffix month.
Proof.
  intros H. apply search_from_sound in H as (pre & w & rest & -> & H).
  unfold council_re, plus, times in H. simpl in H.
  destruct H as (wd & w1 & gwd & g1 & -> & -> & (gi & -> & (Hwd & Hwd1 & _ & ->)) & H).
  destruct H as (c & w2 & gc & g2 & -> & -> & (-> & ->) & H).
  destruct H as (b1 & w3 & gb1 & g3 & -> & -> & (Hb1 & Hl1 & _ & ->) & H).
  destruct H as (d & w4 & gd & g4 & -> & -> & (gj & -> & (Hd & Hd1 & Hd2 & ->)) & H).
  destruct H as (suf & w5 & gs & g5 & -> & -> & (gk & -> & Hsuf) & H).
  destruct H as (b2 & m & gb2 & gm & -> & -> & (Hb2 & Hl2 & _ & ->) & H).
  destruct H as (gl & -> & (Hm & Hm1 & _ & ->)).
  assert (Hin : In suf ["st"; "nd"; "rd"; "th"] /\ gk = []).
  { simpl. repeat (destruct Hsuf as [Hsuf | Hsuf]); destruct Hsuf as [-> ->]; auto 10. }
  destruct Hin as [Hin ->].
  exists wd, d, suf, m. split; [reflexivity|].
  exists pre, b1, b2, rest. rewrite !app_assoc_s.
  repeat split; auto using not_empty_length.
Qed.

Section CharFacts.

Lemma has_char_app c s t : has_char c (s +:+ t) = has_char c s || has_char c t.
Proof.
  induction s as [|a s IH]; [reflexivity|].
  rewrite app_cons. simpl. now rewrite IH, orb_assoc.
Qed.

Lemma space_is_not c a : Py.is_space c = false -> Py.is_space a = true -> Ascii.eqb a c = false.
Proof. intros Hc Ha. destruct (Ascii.eqb_spec a c) as [->|]; congruence. Qed.

Lemma has_char_lstrip c s : Py.is_space c = false -> has_char c (Py.lstrip s) = has_char c s.
Proof.
  intros Hc. induction s as [|a s IH]; [reflexivity|]. simpl.
  destruct (Py.is_space a) eqn:Ha; [|reflexivity].
  now rewrite IH, (space_is_not c a Hc Ha).
Qed.

Lemma has_char_rstrip c s : Py.is_space c = false -> has_char c (Py.rstrip s) = has_char c s.
Proof.
  intros Hc. induction s as [|a s IH]; [reflexivity|]. simpl.
  destruct (Py.rstrip s) as [|b t] eqn:Hr.
  - simpl in IH. rewrite <- IH. destruct (Py.is_space a) eqn:Ha; simpl.
    + now rewrite (space_is_not c a Hc Ha).
    + reflexivity.
  - change (has_char c (String a (String b t))) with (Ascii.eqb a c || has_char c (String b t)).
    now rewrite IH.
Qed.

Lemma has_char_strip c s : Py.is_space c = false -> has_char c (Py.strip s) = has_char c s.
Proof. intros Hc. unfold Py.strip. now rewrite has_char_rstrip, has_char_lstrip. Qed.

Lemma lower_char_paren a : Ascii.eqb (Py.lower_char a) "(" = Ascii.eqb a "(".
Proof. destruct a as [[] [] [] [] [] [] [] []]; vm_compute; reflexivity. Qed.

Lemma has_paren_lower s : has_char "(" (Py.lower s) = has_char "(" s.
Proof.
  induction s as [|a s IH]; [reflexivity|].
  unfold Py.lower in *. simpl. now rewrite IH, lower_char_paren.
Qed.

Lemma word_char_not_comma a : Py.is_word a = true -> Ascii.eqb a "," = false.
Proof.
  destruct a as [[] [] [] [] [] [] [] []]; intros H; vm_compute in H;
    try discriminate H; vm_compute; reflexivity.
Qed.

Lemma digit_is_word a : Py.is_digit a = true -> Py.is_word a = true.
Proof. unfold Py.is_word. intros ->. now rewrite orb_true_r. Qed.

Lemma no_comma_in_word s : Py.all_chars Py.is_word s = true -> has_char "," s = false.
Proof.
  induction s as [|a s IH]; [reflexivity|]. simpl.
  intros H. apply andb_true_iff in H as [Ha Hs]. now rewrite IH, word_char_not_comma.
Qed.

Lemma no_comma_in_digits s : Py.all_chars Py.is_digit s = true -> has_char "," s = false.
Proof.
  intros H. apply no_comma_in_word. revert H. apply all_chars_weaken, digit_is_word.
Qed.

Lemma no_comma_in_uint d : has_char "," (NilEmpty.string_of_uint d) = false.
Proof. induction d; simpl; auto. Qed.

Lemma no_comma_in_str n : has_char "," (Py.str n) = false.
Proof.
  unfold Py.str. destruct (Z.to_int n) as [d|d]; simpl.
  - destruct d; try apply no_comma_in_uint. reflexivity.
  - destruct d; try apply no_comma_in_uint. reflexivity.
Qed.

End CharFacts.

(** A text that has no comma does not match the pattern. *)
Lemma no_comma_no_match text :
  has_char "," text = false -> re_search council_re text = None.
Proof.
  intros Hno. destruct (re_search council_re text) as [g|] eqn:Hs; [|reflexivity].
  apply council_re_sound in Hs as (wd & d & suf & m & _ & Hshape).
  destruct Hshape as (pre & b1 & b2 & post & -> & _).
  rewrite !has_char_app in Hno. simpl in Hno.
  rewrite !orb_true_r in Hno. discriminate.
Qed.

(** A display string goes through [beautify_str] as it is. *)
Lemma display_is_stable now Y diff wd day suf :
  Py.all_chars Py.is_word wd = true ->
  Py.all_chars Py.is_digit day = true ->
  In suf ["st"; "nd"; "rd"; "th"] ->
  let out := display diff (Py.take 3 wd) day suf in
  beautify_str now Y out = Ok out.
Proof.
  intros Hwd Hday Hsuf out. subst out. unfold display.
  destruct (diff =? 0); [reflexivity|].
  destruct (diff =? 1); [reflexivity|].
  set (out := Py.str diff +:+ " Days (" +:+ Py.take 3 wd +:+ " " +:+ day +:+ suf +:+ ")").
  assert (Hparen : has_char "(" out = true).
  { unfold out. rewrite has_char_app. simpl. now rewrite orb_true_r. }
  assert (Hcomma : has_char "," out = false).
  { unfold out. rewrite !has_char_app.
    rewrite no_comma_in_str, (no_comma_in_word (Py.take 3 wd)),
      (no_comma_in_digits day) by auto using all_chars_take.
    simpl. destruct Hsuf as [<-|[<-|[<-|[<-|[]]]]]; reflexivity. }
  unfold beautify_str.
  destruct (String.eqb_spec (Py.lower (Py.strip out)) "today") as [Heq|_].
  - assert (H : has_char "(" (Py.lower (Py.strip out)) = true).
    { now rewrite has_paren_lower, has_char_strip. }
    rewrite Heq in H. discriminate H.
  - rewrite no_comma_no_match; [reflexivity|]. now rewrite has_char_strip.
Qed.

(** Running [beautify_str] on its own result changes nothing. *)
Lemma beautify_str_idempotent now Y v out :
  beautify_str now Y v = Ok out -> beautify_str now Y out = Ok out.
Proof.
  intros H. pose proof H as H0. unfold beautify_str in H.
  destruct (String.eqb (Py.lower (Py.strip v)) "today"); [now inversion H|].
  destruct (re_search council_re (Py.strip v)) as [g|] eqn:Hs;
    [|inversion H; subst; exact H0].
  apply council_re_sound in Hs as (wd & d & suf & m & -> & Hshape).
  destruct Hshape as (pre & b1 & b2 & post & _ & [_ Hwd] & _ & [Hd _] & Hsuf & _).
  destruct (first_format _ _) as [[target|]|e]; simpl in H;
    [|inversion H; subst; exact H0|discriminate].
  destruct (year_rollover now target Y) as [target'|e]; simpl in H; [|discriminate].
  inversion H. now apply display_is_stable.
Qed.

(** ** Values the normalizer passes through *)

(** C8, as the specification has it, fails: a value that is no canonical
    token and is not "today" is rewritten when the pattern of the code
    is found somewhere inside it. *)
Lemma beautify_rewrites_non_token :
  is_canonical_token "Bin day: Someday, 6th JANUARY (approx)" = false /\
  String.eqb (Py.lower (Py.strip "Bin day: Someday, 6th JANUARY (approx)")) "today" = false /\
  beautify_str (Date 2025 12 20) 2025 "Bin day: Someday, 6th JANUARY (approx)"
    = Ok "17 Days (Som 6th)".
Proof. repeat split; vm_compute; reflexivity. Qed.

(** C8, amended. A string value whose trimmed form is not "today" in any
    letter case, and in which the pattern of the code (a word, a comma,
    white space, one or two digits, one of st, nd, rd, th, white space, a
    word) occurs nowhere, is returned unchanged, by the loop body and in
    the record [beautify] returns; "Today" and "Tomorrow" are returned as
    they are, and the loop body changes nothing in its own output. *)
Theorem beautify_passthrough (now : date) (value_ : string) :
  (forall weekday day suffix month,
     ~ council_shape (Py.strip value_) weekday day suffix month) ->
  String.eqb (Py.lower (Py.strip value_)) "today" = false ->
  beautify_str now (year now) value_ = Ok value_ /\
  (forall (h : heap) l items key,
     h !! l = Some (Dict items) -> NoDup (keys items) ->
     In (key, VStr value_) items ->
     exists out,
       as_dict (beautify now (VRef l) h).2 (beautify now (VRef l) h).1 = Some out /\
       In (key, VStr value_) out) /\
  beautify_str now (year now) "Today" = Ok "Today" /\
  beautify_str now (year now) "Tomorrow" = Ok "Tomorrow" /\
  (forall v out,
     beautify_str now (year now) v = Ok out -> beautify_str now (year now) out = Ok out).
Proof.
  intros Hno Hnot.
  assert (Hstr : beautify_str now (year now) value_ = Ok value_).
  { unfold beautify_str. rewrite Hnot.
    destruct (re_search council_re (Py.strip value_)) as [g|] eqn:Hs; [|reflexivity].
    apply council_re_sound in Hs as (wd & d & suf & m & _ & Hshape).
    now destruct (Hno wd d suf m). }
  split; [exact Hstr|]. split; [|split; [reflexivity|split; [reflexivity|]]].
  - intros h l items key Hl Hnd Hin.
    apply (beautify_keeps_entry now h l items key (VStr value_) Hl Hnd Hin).
    simpl. now rewrite Hstr.
  - intros v out. apply beautify_str_idempotent.
Qed.

Lemma beautify_passthrough_witness :
  beautify_str (Date 2025 12 20) 2025 "Collections suspended" = Ok "Collections suspended".
Proof.
  apply (beautify_passthrough (Date 2025 12 20) "Collections suspended"); [|reflexivity].
  intros wd d suf m (pre & b1 & b2 & post & H & _).
  assert (Hc : has_char "," (Py.strip "Collections suspended") = true).
  { rewrite H, !has_char_app. simpl. now rewrite !orb_true_r. }
  vm_compute in Hc. discriminate Hc.
Defined.

(** ** Reading a date *)

Lemma opt_eqb_eq x y : opt_eqb x y = true -> x = y.
Proof.
  destruct x, y; simpl; try discriminate; try reflexivity.
  intros H. apply Z.eqb_eq in H. now subst.
Qed.

Lemma span_app c w r :
  Py.all_chars c w = true -> starts_not c r -> span c (w +:+ r) = (w, r).
Proof.
  intros Hw Hr. induction w as [|a w IH].
  - rewrite app_empty_l. destruct r as [|b r]; [reflexivity|].
    simpl in *. now rewrite Hr.
  - rewrite app_cons. simpl in *. apply andb_true_iff in Hw as [Ha Hw].
    now rewrite Ha, (IH Hw).
Qed.

Lemma field_starts f r : is_field f = true -> starts_not Py.is_space (f +:+ r).
Proof.
  unfold is_field. intros H. apply andb_true_iff in H as [Hne Hall].
  destruct f as [|a f]; [discriminate|].
  rewrite app_cons. simpl in *. apply andb_true_iff in Hall as [Ha _].
  unfold not_space in Ha. now destruct (Py.is_space a).
Qed.

Lemma field_chars f : is_field f = true -> Py.all_chars not_space f = true.
Proof. unfold is_field. intros H. now apply andb_true_iff in H as [_ H]. Qed.

Lemma strptime_fields f1 f2 f3 fmt :
  is_field f1 = true -> is_field f2 = true -> is_field f3 = true ->
  strptime (f1 +:+ " " +:+ f2 +:+ " " +:+ f3) fmt =
  match read_day f1, read_month fmt f2, read_year f3 with
  | Some d, Some m, Some y => make y m d
  | _, _, _ => Raise ValueError
  end.
Proof.
  intros H1 H2 H3. unfold strptime.
  rewrite (span_app not_space f1) by (auto using field_chars; reflexivity).
  rewrite (span_app Py.is_space " " (f2 +:+ " " +:+ f3))
    by (auto using field_starts; reflexivity).
  rewrite (span_app not_space f2) by (auto using field_chars; reflexivity).
  rewrite <- (app_empty_r f3) at 1.
  rewrite (span_app Py.is_space " " (f3 +:+ "")) by (auto using field_starts; reflexivity).
  rewrite (span_app not_space f3 "") by (auto using field_chars; exact I).
  reflexivity.
Qed.

Lemma every_day_reads : forallb day_reads days_1_31 = true.
Proof. vm_compute. reflexivity. Qed.

Lemma every_month_reads : forallb month_reads months = true.
Proof. vm_compute. reflexivity. Qed.

Lemma every_year_reads : forallb year_reads years_1000_9999 = true.
Proof. vm_compute. reflexivity. Qed.

Lemma every_token_parses :
  forallb (fun wd => forallb (fun d => forallb (token_parses wd d) months)
                             days_1_31) weekdays = true.
Proof. vm_compute. reflexivity. Qed.

Lemma in_years y : 1000 <= y <= 9999 -> In y years_1000_9999.
Proof.
  intros H. unfold years_1000_9999. apply in_map_iff.
  exists (Z.to_nat (y - 1000)). split; [lia|]. apply in_seq. lia.
Qed.

Lemma valid_range y m d :
  valid y m d = true -> 1 <= y <= 9999 /\ 1 <= m <= 12 /\ 1 <= d <= 31.
Proof.
  unfold valid. rewrite !andb_true_iff, !Z.leb_le.
  intros [[[[[? ?] ?] ?] ?] Hd].
  assert (days_in_month y m <= 31).
  { unfold days_in_month.
    repeat match goal with
           | |- context [match ?x with _ => _ end] => destruct x
           end; lia. }
  lia.
Qed.

(** The two formats, on the text [beautify] builds from a day from 1 to
    31, a month abbreviation and a year of four digits: the date when
    there is such a day, nothing otherwise. *)
Lemma first_format_reads d month mon m y :
  1 <= d <= 31 -> In (month, mon, m) months -> 1000 <= y <= 9999 ->
  first_format (Py.str d +:+ " " +:+ Py.title mon +:+ " " +:+ Py.str y) [d_b_Y; d_B_Y]
  = if valid y m d then Ok (Some (Date y m d)) else Ok None.
Proof.
  intros Hd Hm Hy.
  pose proof every_day_reads as Hday. rewrite forallb_forall in Hday.
  specialize (Hday _ (in_days_1_31 _ Hd)).
  pose proof every_month_reads as Hmon. rewrite forallb_forall in Hmon.
  specialize (Hmon _ Hm).
  pose proof every_year_reads as Hyear. rewrite forallb_forall in Hyear.
  specialize (Hyear _ (in_years _ Hy)).
  unfold day_reads in Hday. unfold month_reads in Hmon. unfold year_reads in Hyear.
  simpl in Hmon.
  apply andb_true_iff in Hday as [Hf1 Hrd]. apply opt_eqb_eq in Hrd.
  apply andb_true_iff in Hmon as [Hmon HrB]. apply andb_true_iff in Hmon as [Hf2 Hrb].
  apply opt_eqb_eq in Hrb. apply opt_eqb_eq in HrB.
  apply andb_true_iff in Hyear as [Hf3 Hry]. apply opt_eqb_eq in Hry.
  cbn [first_format].
  rewrite !strptime_fields by assumption.
  rewrite Hrd, Hrb, HrB, Hry. unfold make.
  destruct (valid y m d) eqn:Hv; [reflexivity|].
  destruct (Z.eqb_spec m 5) as [->|_]; [now rewrite Hv|reflexivity].
Qed.

(** ** The year rollover *)

Lemma days_before_year_succ y :
  days_before_year (y + 1) = days_before_year y + 365 + (if is_leap y then 1 else 0).
Proof.
  unfold days_before_year, is_leap. replace (y + 1 - 1) with y by lia.
  destruct (Z.eqb_spec (y mod 4) 0); destruct (Z.eqb_spec (y mod 100) 0);
    destruct (Z.eqb_spec (y mod 400) 0); simpl;
    Z.div_mod_to_equations; lia.
Qed.

Lemma third_of_january_this_year y :
  days_between (Date y 1 3) (Date y 12 20) = -351 - (if is_leap y then 1 else 0).
Proof.
  unfold days_between, toordinal, days_before_month. cbn [year month day].
  change (2 <? 1) with false. change (2 <? 12) with true. cbn [andb].
  destruct (is_leap y); lia.
Qed.

Lemma third_of_january_next_year y :
  days_between (Date (y + 1) 1 3) (Date y 12 20) = 14.
Proof.
  unfold days_between, toordinal, days_before_month. cbn [year month day].
  rewrite days_before_year_succ.
  change (2 <? 1) with false. change (2 <? 12) with true. cbn [andb].
  destruct (is_leap y); lia.
Qed.

(** A canonical token whose day exists: the date constructed, the date
    after the rollover step, and the display string. *)
Lemma beautify_str_token now weekday month mon d m :
  1000 <= year now <= 9999 ->
  In weekday weekdays -> In (month, mon, m) months ->
  valid (year now) m d = true ->
  (days_between (Date (year now) m d) now < -30 -> valid (year now + 1) m d = true) ->
  let target := Date (year now) m d in
  let resolved :=
    if days_between target now <? -30 then Date (year now + 1) m d else target in
  first_format (Py.str d +:+ " " +:+ Py.title mon +:+ " " +:+ Py.str (year now))
               [d_b_Y; d_B_Y] = Ok (Some target) /\
  year_rollover now target (year now) = Ok resolved /\
  beautify_str now (year now) (canonical_token weekday d mon)
    = Ok (display (days_between resolved now) (Py.take 3 weekday) (Py.str d)
                  (suffix_rule d)).
Proof.
  intros Hy Hwd Hm Hvalid Hnext target resolved.
  destruct (valid_range _ _ _ Hvalid) as (_ & _ & Hd).
  assert (Hfirst : first_format
                     (Py.str d +:+ " " +:+ Py.title mon +:+ " " +:+ Py.str (year now))
                     [d_b_Y; d_B_Y] = Ok (Some target)).
  { rewrite (first_format_reads d month mon m (year now) Hd Hm Hy). now rewrite Hvalid. }
  assert (Hroll : year_rollover now target (year now) = Ok resolved).
  { unfold year_rollover, resolved, replace_year, make. subst target. cbn [Datetime.month Datetime.day].
    destruct (Z.ltb_spec (days_between (Date (year now) m d) now) (-30)) as [Hlt|_];
      [|reflexivity].
    now rewrite (Hnext Hlt). }
  split; [exact Hfirst|]. split; [exact Hroll|].
  pose proof every_token_parses as Htok.
  rewrite forallb_forall in Htok. specialize (Htok _ Hwd).
  rewrite forallb_forall in Htok. specialize (Htok _ (in_days_1_31 _ Hd)).
  rewrite forallb_forall in Htok. specialize (Htok _ Hm).
  unfold token_parses in Htok. cbn [fst snd] in Htok.
  apply andb_true_iff in Htok as [Hnot Hparse]. apply negb_true_iff in Hnot.
  unfold beautify_str. rewrite Hnot.
  destruct (re_search council_re (Py.strip (canonical_token weekday d mon)))
    as [[|w [|ds [|suf [|mo [|]]]]]|]; try discriminate Hparse.
  apply andb_true_iff in Hparse as [Hparse Hmo].
  apply andb_true_iff in Hparse as [Hparse Hsuf].
  apply andb_true_iff in Hparse as [Hw Hds].
  apply String.eqb_eq in Hw, Hds, Hsuf, Hmo. subst w ds suf mo.
  rewrite Hfirst. cbn [bind]. rewrite Hroll. reflexivity.
Qed.

(** C3, as the specification has it, fails: "Friday, 31st APR" has the
    shape of a canonical token, but no date is constructed from it and
    the value is returned as it is. *)
Lemma beautify_token_without_date :
  is_canonical_token "Friday, 31st APR" = true /\
  first_format "31 Apr 2025" [d_b_Y; d_B_Y] = Ok None /\
  beautify_str (Date 2025 12 20) 2025 "Friday, 31st APR" = Ok "Friday, 31st APR".
Proof. repeat split; vm_compute; reflexivity. Qed.

(** The 29th of February, seen late in a leap year: the rollover step
    raises, and [beautify] falls back to its input. *)
Example beautify_leap_day_raises :
  beautify_str (Date 2024 12 20) 2024 "Thursday, 29th FEB" = Raise ValueError.
Proof. vm_compute. reflexivity. Qed.

(** C3, amended. For a canonical token whose day exists in its month of
    the current year (a year of four digits), [beautify] constructs the
    date in the current year and, exactly when that date is more than 30
    days before the current date, constructs it again with year+1
    (given that the day exists in that year too); the display string is
    made from the difference in days.  On 20 December the token
    "Saturday, 3rd JAN" resolves to 3 January of the next year, 14 days
    ahead. *)
Theorem beautify_year_rollover (now : date) (weekday month mon : string) (d m : Z) :
  1000 <= year now <= 9999 ->
  In weekday weekdays -> In (month, mon, m) months ->
  valid (year now) m d = true ->
  (days_between (Date (year now) m d) now < -30 -> valid (year now + 1) m d = true) ->
  let target := Date (year now) m d in
  let resolved :=
    if days_between target now <? -30 then Date (year now + 1) m d else target in
  (first_format (Py.str d +:+ " " +:+ Py.title mon +:+ " " +:+ Py.str (year now))
                [d_b_Y; d_B_Y] = Ok (Some target) /\
   year_rollover now target (year now) = Ok resolved /\
   beautify_str now (year now) (canonical_token weekday d mon)
     = Ok (display (days_between resolved now) (Py.take 3 weekday) (Py.str d)
                   (suffix_rule d))) /\
  (forall y, 1000 <= y <= 9998 ->
     year_rollover (Date y 12 20) (Date y 1 3) y = Ok (Date (y + 1) 1 3) /\
     days_between (Date (y + 1) 1 3) (Date y 12 20) = 14 /\
     beautify_str (Date y 12 20) y "Saturday, 3rd JAN" = Ok "14 Days (Sat 3rd)").
Proof.
  intros Hy Hwd Hm Hvalid Hnext target resolved.
  split; [now apply (beautify_str_token now weekday month mon d m)|].
  intros y Hy'.
  assert (Hv : forall y', 1 <= y' <= 9999 -> valid y' 1 3 = true).
  { intros y' H. unfold valid. cbn [days_in_month].
    rewrite !andb_true_iff, !Z.leb_le. lia. }
  assert (Hlt : (days_between (Date y 1 3) (Date y 12 20) <? -30) = true).
  { apply Z.ltb_lt. rewrite third_of_january_this_year. destruct (is_leap y); lia. }
  destruct (beautify_str_token (Date y 12 20) "Saturday" "January" "JAN" 3 1)
    as (_ & Hroll & Hout); cbn [year] in *.
  - lia.
  - simpl. auto 10.
  - simpl. auto.
  - apply Hv. lia.
  - intros _. apply Hv. lia.
  - rewrite Hlt in Hroll, Hout. rewrite third_of_january_next_year in Hout.
    split; [exact Hroll|]. split; [apply third_of_january_next_year|exact Hout].
Qed.

Lemma beautify_year_rollover_witness :
  beautify_str (Date 2025 12 20) 2025 "Monday, 22nd DEC" = Ok "2 Days (Mon 22nd)".
Proof.
  destruct (beautify_year_rollover (Date 2025 12 20) "Monday" "December" "DEC" 22 12)
    as [(_ & _ & H) _].
  - simpl. lia.
  - simpl. auto.
  - simpl. auto 20.
  - reflexivity.
  - intros _. reflexivity.
  - exact H.
Defined.

(** ** The pipeline *)

(** C2, as the specification has it, fails: on a page without blocks the
    extractor returns an error record, and [main] still enters the
    normalizer stage before it shows the record. *)
Lemma main_beautifies_extractor_error :
  parse_to_json (fun _ => Ok (document [])) "<p></p>" = [("Error", "Invalid HTML")] /\
  main unit (steady_browser "<p></p>") (fun _ => Ok (document [])) (Date 2025 12 20) tt
    = [Scraping; Parsing; Beautifying;
       ShowResult (Some [("Error", VStr "Invalid HTML")])].
Proof. split; vm_compute; reflexivity. Qed.

(** C2, amended. An error record of the scraper goes to the consumer at
    once: the extractor and the normalizer are not entered.  An error
    record of the extractor still passes through the normalizer, which
    leaves its key and code as they are, and the consumer is shown a
    record equal to it. *)
Theorem main_error_record (Browser : Type)
    (playwright : call -> Browser -> result string * Browser)
    (BeautifulSoup : string -> result node) (now : date) (b : Browser) :
  (forall d b',
     scrape_url_get_html Browser playwright URL POSTCODE ADDRESS_VALUE b = (ErrorDict d, b') ->
     main Browser playwright BeautifulSoup now b
       = [Scraping; ShowResult (Some (str_items d))] /\
     exists code, str_items d = [("Error", VStr code)]) /\
  (forall html b' code,
     scrape_url_get_html Browser playwright URL POSTCODE ADDRESS_VALUE b = (Str html, b') ->
     parse_to_json BeautifulSoup html = [("Error", code)] ->
     main Browser playwright BeautifulSoup now b
       = [Scraping; Parsing; Beautifying; ShowResult (Some [("Error", VStr code)])]).
Proof.
  split.
  - intros d b' Hscrape. unfold main. rewrite Hscrape. split; [reflexivity|].
    unfold scrape_url_get_html in Hscrape.
    destruct (scrape_try Browser playwright URL POSTCODE ADDRESS_VALUE b) as [[html|e] b0].
    + discriminate.
    + destruct e; inversion Hscrape; subst; eexists; reflexivity.
  - intros html b' code Hscrape Hparse.
    destruct (parse_to_json_error_code BeautifulSoup html) as (code' & Hcode & Hin).
    { rewrite Hparse. simpl. auto. }
    assert (code' = code) by congruence. subst code'.
    unfold main. rewrite Hscrape, Hparse.
    destruct Hin as [<-|[<-|[<-|[]]]]; vm_compute; reflexivity.
Qed.

Lemma main_error_record_witness :
  main unit stalled_browser (fun _ => Ok (document [])) (Date 2025 12 20) tt
    = [Scraping; ShowResult (Some [("Error", VStr "Browser")])].
Proof.
  apply (proj1 (main_error_record unit stalled_browser (fun _ => Ok (document []))
                  (Date 2025 12 20) tt) [("Error", "Browser")] tt).
  reflexivity.
Defined.

(** * Further properties *)

(** ** The scraper, call by call *)

Lemma play_prefix {Browser : Type} (playwright : call -> Browser -> result string * Browser) cs :
  forall b, exists rest, cs = map fst (play playwright cs b).1 ++ rest.
Proof.
  induction cs as [|c cs IH]; intros b; simpl.
  - exists []. reflexivity.
  - destruct (playwright c b) as [[a|e] b'].
    + destruct (IH b') as [rest Hrest].
      destruct (play playwright cs b') as [t b'']. simpl in *.
      exists rest. now rewrite <- Hrest.
    + exists cs. reflexivity.
Qed.

Lemma play_stops {Browser : Type} (playwright : call -> Browser -> result string * Browser) cs :
  forall b pre c e post,
    (play playwright cs b).1 = pre ++ (c, Raise e) :: post -> post = [].
Proof.
  induction cs as [|c0 cs IH]; intros b pre c e post H; simpl in H.
  - now destruct pre.
  - destruct (playwright c0 b) as [[a|e0] b'].
    + specialize (IH b'). destruct (play playwright cs b') as [t b'']. simpl in *.
      destruct pre as [|p pre]; simpl in H; [discriminate|].
      inversion H; subst. eapply IH. reflexivity.
    + simpl in H. destruct pre as [|p [|q pre]]; simpl in H; inversion H; reflexivity.
Qed.

Lemma play_answered {Browser : Type} (playwright : call -> Browser -> result string * Browser)
    cs :
  forall b, Forall answered (play playwright cs b).1 -> map fst (play playwright cs b).1 = cs.
Proof.
  induction cs as [|c cs IH]; intros b; simpl; [reflexivity|].
  destruct (playwright c b) as [[a|e] b'].
  - specialize (IH b'). destruct (play playwright cs b') as [t b'']. simpl in *.
    intros H. inversion H; subst. f_equal. now apply IH.
  - simpl. intros H. inversion H as [|x l [a Ha] Hl]. discriminate Ha.
Qed.

Lemma Forall_last {A : Type} (P : A -> Prop) (l : list A) (d : A) :
  Forall P l -> P d -> P (List.last l d).
Proof.
  intros Hl Hd. induction Hl as [|x l Hx Hl IH]; [exact Hd|].
  destruct l as [|y l]; [exact Hx|exact IH].
Qed.

(** The body of the [with] block makes the calls of [script] up to the
    first that raises, and its outcome is the html [inner_html] answered
    or the exception of the last call. *)
Lemma with_block_trace {Browser : Type}
    (playwright : call -> Browser -> result string * Browser)
    (url postcode address_value : string) (b : Browser) (l : list (call * result string)) :
  exists r,
    with_block (Browser * list (call * result string)) (logged playwright)
               url postcode address_value (b, l)
      = (r, ((play playwright (script url postcode address_value) b).2,
             l ++ (play playwright (script url postcode address_value) b).1)) /\
    with_block Browser playwright url postcode address_value b
      = (r, (play playwright (script url postcode address_value) b).2) /\
    match r with
    | Ok html =>
        Forall answered (play playwright (script url postcode address_value) b).1 /\
        In (InnerHtml "#FINDYOURBINDAYS3WEEKLY_RUBBISHRECYCLEFOODDATE", Ok html)
           (play playwright (script url postcode address_value) b).1
    | Raise e =>
        exists c,
          List.last (play playwright (script url postcode address_value) b).1
                    (SyncPlaywright, Ok "") = (c, Raise e)
    end.
Proof.
  unfold with_block, script, run, logged. cbn [play fst snd]. cbv [String.append].
  repeat match goal with
         | |- context [playwright ?c ?b0] =>
             destruct (playwright c b0) as [[?|?] ?]; cbn [play fst snd]
         end;
    eexists; (split; [rewrite <- ?app_assoc; reflexivity|]);
    (split; [reflexivity|]); cbn [List.last];
    first [ eexists; reflexivity
          | split; [repeat constructor; eexists; reflexivity|simpl; auto 20] ].
Qed.

(** X1. The exit of [sync_playwright()] runs exactly once whenever the
    manager was entered, as the last call and on every path: after the
    step that raised, with that exception in flight, or after
    [browser.close()].  The steps in between are made in the order of
    the source and stop at the first that raises, so that a failing step
    leaves closing to the exit.  The result is the html [inner_html]
    answered when every call answered, the exit included; otherwise it is
    the error record of the exception raised last: of the exit when it
    raises, else of the step. *)
Theorem scraper_exits_once (Browser : Type)
    (playwright : call -> Browser -> result string * Browser)
    (url postcode address_value : string) (b : Browser) :
  let out := scrape_url_get_html Browser playwright url postcode address_value b in
  let seen :=
    scrape_url_get_html (Browser * list (call * result string)) (logged playwright)
                        url postcode address_value (b, []) in
  let t := seen.2.2 in
  seen.1 = out.1 /\ seen.2.1 = out.2 /\
  ((exists e,
      t = [(SyncPlaywright, Raise e)] /\ out.1 = ErrorDict [("Error", scraper_code e)]) \/
   (exists a body exc r,
      t = (SyncPlaywright, Ok a) :: body ++ [(SyncPlaywrightExit exc, r)] /\
      (exists rest, script url postcode address_value = map fst body ++ rest) /\
      Forall (fun ca => on_manager ca.1 = false) body /\
      (forall pre c e post,
         body = pre ++ (c, Raise e) :: post -> post = [] /\ exc = Some e) /\
      (exc = None <-> Forall answered body) /\
      (exc = None -> map fst body = script url postcode address_value) /\
      (forall e, r = Raise e -> out.1 = ErrorDict [("Error", scraper_code e)]) /\
      (forall x e, r = Ok x -> exc = Some e ->
         out.1 = ErrorDict [("Error", scraper_code e)]) /\
      (forall x, r = Ok x -> exc = None ->
         exists html,
           In (InnerHtml "#FINDYOURBINDAYS3WEEKLY_RUBBISHRECYCLEFOODDATE", Ok html) body /\
           out.1 = Str html))).
Proof.
  intros out seen t. subst t seen out.
  unfold scrape_url_get_html, scrape_try.
  change (logged playwright SyncPlaywright (b, []))
    with (let (r, b') := playwright SyncPlaywright b in
          (r, (b', [] ++ [(SyncPlaywright, r)]))).
  destruct (playwright SyncPlaywright b) as [[a|e] b1].
  2: { cbn [fst snd app]. split; [now destruct e|]. split; [now destruct e|].
       left. exists e. split; now destruct e. }
  destruct (with_block_trace playwright url postcode address_value b1
              ([] ++ [(SyncPlaywright, Ok a)])) as (rb & Hlog & Hplain & Hrb).
  rewrite Hlog, Hplain. clear Hlog Hplain.
  pose proof (play_prefix playwright (script url postcode address_value) b1) as Hprefix.
  pose proof (play_stops playwright (script url postcode address_value) b1) as Hstops.
  pose proof (play_answered playwright (script url postcode address_value) b1) as Hall.
  destruct (play playwright (script url postcode address_value) b1) as [body b2].
  cbn [fst snd app] in *. unfold logged. cbn [fst snd].
  assert (Hexc : forall pre c e post,
            body = pre ++ (c, Raise e) :: post -> post = [] /\ raised rb = Some e).
  { intros pre c e post Hbody. pose proof (Hstops _ _ _ _ Hbody) as ->.
    split; [reflexivity|]. subst body. destruct rb as [html|e0].
    - destruct Hrb as [Hrb _]. apply Forall_app in Hrb as [_ Hrb].
      inversion Hrb as [|x l0 [y Hy] Hl0]. discriminate Hy.
    - destruct Hrb as [c0 Hrb]. rewrite List.last_last in Hrb. now inversion Hrb. }
  assert (Hnone : raised rb = None <-> Forall answered body).
  { destruct rb as [html|e0]; cbn [raised].
    - split; [intros _; apply Hrb|reflexivity].
    - split; [discriminate|]. intros Hans. destruct Hrb as [c0 Hrb].
      assert (Hd : answered (SyncPlaywright, Ok "")) by now exists "".
      pose proof (Forall_last answered body _ Hans Hd) as [y Hy].
      rewrite Hrb in Hy. discriminate Hy. }
  assert (Hscript : Forall (fun ca : call * result string => on_manager ca.1 = false) body).
  { destruct Hprefix as [rest Hrest]. apply List.Forall_forall. intros ca Hin.
    assert (Hc : In ca.1 (script url postcode address_value)).
    { rewrite Hrest. apply in_or_app. left. now apply in_map. }
    unfold script in Hc. simpl in Hc.
    repeat (destruct Hc as [<-|Hc]; [reflexivity|]). destruct Hc. }
  destruct (playwright (SyncPlaywrightExit (raised rb)) b2) as [[x|e'] b3]; cbn [fst snd].
  - split; [now destruct rb as [|[]]|]. split; [now destruct rb as [|[]]|].
    right. exists a, body, (raised rb), (Ok x).
    split; [now destruct rb as [|[]]|]. split; [exact Hprefix|]. split; [exact Hscript|].
    split; [exact Hexc|]. split; [exact Hnone|].
    split; [intros H; apply Hall, Hnone, H|].
    split; [discriminate|]. split.
    + intros _ e _ He. destruct rb as [|e0]; [discriminate|].
      injection He as ->. now destruct e.
    + intros _ _ He. destruct rb as [html|]; [|discriminate].
      exists html. split; [apply Hrb|reflexivity].
  - split; [now destruct e'|]. split; [now destruct e'|].
    right. exists a, body, (raised rb), (Raise e').
    split; [now destruct e'|]. split; [exact Hprefix|]. split; [exact Hscript|].
    split; [exact Hexc|]. split; [exact Hnone|].
    split; [intros H; apply Hall, Hnone, H|].
    split; [|split; discriminate].
    intros e He. injection He as <-. now destruct e'.
Qed.

Lemma scraper_exits_once_witness :
  (scrape_url_get_html (unit * list (call * result string)) (logged no_results_browser)
                       URL POSTCODE ADDRESS_VALUE (tt, [])).2.2
  = map (fun c => (c, Ok "")) (firstn 10 (SyncPlaywright :: script URL POSTCODE ADDRESS_VALUE)) ++
    [ (WaitForSelector "#FINDYOURBINDAYS3WEEKLY_RUBBISHRECYCLEFOODDATE .rubbish_date_wrap"
                       20000, Raise PlaywrightTimeoutError);
      (SyncPlaywrightExit (Some PlaywrightTimeoutError), Ok "") ] /\
  (scrape_url_get_html (unit * list (call * result string)) (logged no_results_browser)
                       URL POSTCODE ADDRESS_VALUE (tt, [])).1
  = (scrape_url_get_html unit no_results_browser URL POSTCODE ADDRESS_VALUE tt).1.
Proof.
  split; [vm_compute; reflexivity|].
  exact (proj1 (scraper_exits_once unit no_results_browser URL POSTCODE ADDRESS_VALUE tt)).
Defined.

(** ** The formatter applied twice *)

Lemma blank_starts_with_space b rest c s :
  blank b -> b +:+ rest = String c s -> Py.is_space c = true.
Proof.
  intros [Hne Hall] H. destruct b as [|a b]; [congruence|].
  rewrite app_cons in H. inversion H; subst. simpl in Hall.
  now apply andb_true_iff in Hall as [Ha _].
Qed.

(** A text that begins with a weekday name and a comma is not matched by
    the pattern of the raw date. *)
Lemma weekday_comma_no_match weekday rest :
  In weekday weekdays ->
  re_match raw_date_re (weekday +:+ String "," rest) = None.
Proof.
  intros Hwd.
  destruct (re_match raw_date_re (weekday +:+ String "," rest)) as [g|] eqn:Hm;
    [|reflexivity].
  apply raw_date_re_sound in Hm as (wd & d & m & _ & Hshape).
  destruct Hshape as (b1 & b2 & nl & H & Hwd' & Hb1 & _).
  exfalso. unfold weekdays in Hwd, Hwd'. simpl in Hwd, Hwd'.
  repeat (destruct Hwd as [<-|Hwd]); try (destruct Hwd);
    repeat (destruct Hwd' as [<-|Hwd']); try (destruct Hwd');
    cbv [String.append] in H; try discriminate H;
    repeat match type of H with
           | String ?a _ = String ?a _ => injection H as H
           end;
    symmetry in H;
    pose proof (blank_starts_with_space _ _ _ _ Hb1 H) as Hsp;
    vm_compute in Hsp; discriminate Hsp.
Qed.

(** X2. Formatting is idempotent: whatever [format_collection_date]
    returns, it returns again unchanged when called on it.  A canonical
    token is therefore safe to pass through the formatter a second
    time. *)
Theorem format_collection_date_idempotent (raw out : string) :
  format_collection_date raw = Ok out ->
  format_collection_date out = Ok out.
Proof.
  intros H.
  destruct (format_collection_date_cases raw)
    as [[_ Hraw]|(wd & d & m & n & Hshape & _ & Hout)].
  - rewrite Hraw in H. inversion H; subst. exact Hraw.
  - rewrite Hout in H. injection H as <-. clear Hout.
    destruct Hshape as (b1 & b2 & nl & _ & Hwd & _).
    unfold format_collection_date at 1.
    match goal with
    | |- context [re_match raw_date_re ?t] =>
        assert (Hn : re_match raw_date_re t = None)
          by exact (weekday_comma_no_match wd
                      (" " +:+ Py.str n +:+ ordinal_suffix n +:+ " " +:+
                       Py.upper (Py.take 3 m)) Hwd)
    end.
    now rewrite Hn.
Qed.

Lemma format_collection_date_idempotent_witness :
  format_collection_date "Saturday, 17th JAN" = Ok "Saturday, 17th JAN".
Proof.
  apply (format_collection_date_idempotent "Saturday 17 January"). reflexivity.
Defined.

(** ** Dates that [strptime] returns *)

Lemma make_ok y m d t : make y m d = Ok t -> t = Date y m d /\ valid y m d = true.
Proof. unfold make. destruct (valid y m d); [|discriminate]. intros H. now inversion H. Qed.

Lemma make_raises y m d e : make y m d = Raise e -> e = ValueError /\ valid y m d = false.
Proof. unfold make. destruct (valid y m d); [discriminate|]. intros H. now inversion H. Qed.

Lemma strptime_raises data fmt e : strptime data fmt = Raise e -> e = ValueError.
Proof.
  unfold strptime.
  repeat match goal with
         | |- context [let (_, _) := ?x in _] => destruct x
         | |- context [match ?x with _ => _ end] => destruct x
         end; intros H;
    first [ now inversion H | now apply make_raises in H as [-> _] ].
Qed.

Lemma first_format_no_raise data fmts e : first_format data fmts <> Raise e.
Proof.
  induction fmts as [|fmt fmts IH]; simpl; [discriminate|].
  destruct (strptime data fmt) as [t|e0] eqn:Hs; [discriminate|].
  apply strptime_raises in Hs. now subst e0.
Qed.

Lemma every_year_reads_back : forallb year_reads_back years_1_9999 = true.
Proof. vm_compute. reflexivity. Qed.

Lemma in_years_1_9999 y : 1 <= y <= 9999 -> In y years_1_9999.
Proof.
  intros H. unfold years_1_9999. apply in_map_iff.
  exists (Z.to_nat (y - 1)). split; [lia|]. apply in_seq. lia.
Qed.

Lemma word_char_title a :
  Py.is_word a = true ->
  not_space (Py.lower_char a) = true /\ not_space (Py.upper_char a) = true.
Proof.
  destruct a as [[] [] [] [] [] [] [] []]; intros H; vm_compute in H;
    try discriminate H; split; vm_compute; reflexivity.
Qed.

Lemma title_chars s :
  Py.all_chars Py.is_word s = true ->
  forall cased, Py.all_chars not_space (Py.title_from cased s) = true.
Proof.
  induction s as [|a s IH]; intros H cased; [reflexivity|]. simpl in *.
  apply andb_true_iff in H as [Ha Hs]. rewrite (IH Hs).
  destruct (word_char_title a Ha) as [Hl Hu]. destruct cased; now rewrite ?Hl, ?Hu.
Qed.

Lemma title_is_field s : word s -> is_field (Py.title s) = true.
Proof.
  intros [Hne Hall]. unfold is_field, Py.title.
  rewrite (title_chars s Hall false), andb_true_r.
  destruct s as [|a s]; [congruence|reflexivity].
Qed.

Lemma digit_not_space a : Py.is_digit a = true -> not_space a = true.
Proof.
  destruct a as [[] [] [] [] [] [] [] []]; intros H; vm_compute in H;
    try discriminate H; vm_compute; reflexivity.
Qed.

Lemma digits_is_field s : day_digits s -> is_field s = true.
Proof.
  intros (Hall & Hlen & _). unfold is_field.
  rewrite (all_chars_weaken _ _ s digit_not_space Hall), andb_true_r.
  destruct s; [simpl in Hlen; lia|reflexivity].
Qed.

(** The date [beautify] constructs, when it constructs one, is a day
    that exists in the current year. *)
Lemma first_format_target day_ month_str y t :
  day_digits day_ -> word month_str -> 1 <= y <= 9999 ->
  first_format (day_ +:+ " " +:+ Py.title month_str +:+ " " +:+ Py.str y) [d_b_Y; d_B_Y]
    = Ok (Some t) ->
  exists m d, t = Date y m d /\ valid y m d = true.
Proof.
  intros Hday Hmon Hy.
  pose proof every_year_reads_back as Hyear. rewrite forallb_forall in Hyear.
  specialize (Hyear _ (in_years_1_9999 _ Hy)). unfold year_reads_back in Hyear.
  apply andb_true_iff in Hyear as [Hf3 Hry]. apply opt_eqb_eq in Hry.
  cbn [first_format].
  rewrite !strptime_fields by auto using digits_is_field, title_is_field.
  rewrite Hry.
  assert (Hcase : forall fmt r,
            match read_day day_, read_month fmt (Py.title month_str),
                  (if 1000 <=? y then Some y else None) with
            | Some d, Some m, Some y0 => make y0 m d
            | _, _, _ => Raise ValueError
            end = Ok r ->
            exists m d, r = Date y m d /\ valid y m d = true).
  { intros fmt r.
    destruct (read_day day_) as [d|]; [|discriminate].
    destruct (read_month fmt (Py.title month_str)) as [m|]; [|discriminate].
    destruct (1000 <=? y); [|discriminate].
    intros H. apply make_ok in H. eauto. }
  destruct (match read_day day_, read_month d_b_Y (Py.title month_str),
                  (if 1000 <=? y then Some y else None) with
            | Some d, Some m, Some y0 => make y0 m d
            | _, _, _ => Raise ValueError
            end) as [r|e] eqn:H1.
  - intros H. inversion H; subst. eapply Hcase, H1.
  - destruct e; try discriminate.
    destruct (match read_day day_, read_month d_B_Y (Py.title month_str),
                    (if 1000 <=? y then Some y else None) with
              | Some d, Some m, Some y0 => make y0 m d
              | _, _, _ => Raise ValueError
              end) as [r|e] eqn:H2.
    + intros H. inversion H; subst. eapply Hcase, H2.
    + destruct e; discriminate.
Qed.

(** ** How far away a displayed date can be *)

Lemma month_cases m : 1 <= m <= 12 ->
  m = 1 \/ m = 2 \/ m = 3 \/ m = 4 \/ m = 5 \/ m = 6 \/
  m = 7 \/ m = 8 \/ m = 9 \/ m = 10 \/ m = 11 \/ m = 12.
Proof. lia. Qed.

Lemma valid_parts y m d :
  valid y m d = true ->
  1 <= y <= 9999 /\ 1 <= m <= 12 /\ 1 <= d <= days_in_month y m.
Proof.
  unfold valid. rewrite !andb_true_iff, !Z.leb_le. intuition.
Qed.

Lemma day_of_year_bounds y m d :
  valid y m d = true ->
  1 <= days_before_month y m + d <= 365 + (if is_leap y then 1 else 0).
Proof.
  intros H. apply valid_parts in H as (_ & Hm & Hd).
  destruct (month_cases m Hm) as [->|[->|[->|[->|[->|[->|[->|[->|[->|[->|[->| ->]]]]]]]]]]];
    unfold days_before_month, days_in_month in *; simpl in *;
    destruct (is_leap y); simpl in *; lia.
Qed.

Lemma days_before_month_next y y' m :
  days_before_month y' m <= days_before_month y m + 1.
Proof.
  unfold days_before_month. destruct (2 <? m); simpl;
    destruct (is_leap y), (is_leap y'); lia.
Qed.

(** After the rollover step the date is at most 30 days back and at most
    365 days ahead. *)
Lemma rollover_bounds now m d t :
  valid_date now = true -> valid (year now) m d = true ->
  year_rollover now (Date (year now) m d) (year now) = Ok t ->
  -30 <= days_between t now <= 365.
Proof.
  intros Hnow Hv. destruct now as [y mn dn]. unfold valid_date in Hnow. simpl in *.
  pose proof (day_of_year_bounds _ _ _ Hnow) as Bn.
  pose proof (day_of_year_bounds _ _ _ Hv) as Bt.
  unfold year_rollover, replace_year. simpl.
  destruct (Z.ltb_spec (days_between (Date y m d) (Date y mn dn)) (-30)) as [Hlt|Hge].
  - intros H. apply make_ok in H as [-> Hv'].
    pose proof (day_of_year_bounds _ _ _ Hv') as Bt'.
    pose proof (days_before_month_next y (y + 1) m) as Hnext.
    unfold days_between, toordinal in *. simpl in *.
    rewrite days_before_year_succ. destruct (is_leap y), (is_leap (y + 1)); lia.
  - intros H. inversion H; subst.
    unfold days_between, toordinal in *. simpl in *.
    destruct (is_leap y); lia.
Qed.

Lemma rollover_raises now m d e :
  valid (year now) m d = true ->
  year_rollover now (Date (year now) m d) (year now) = Raise e ->
  e = ValueError /\ days_between (Date (year now) m d) now < -30 /\
  (year now = 9999 \/ (m = 2 /\ d = 29 /\ is_leap (year now) = true)).
Proof.
  intros Hv. unfold year_rollover, replace_year. simpl.
  destruct (Z.ltb_spec (days_between (Date (year now) m d) now) (-30)) as [Hlt|Hge];
    [|discriminate].
  intros H. apply make_raises in H as [-> Hv']. split; [reflexivity|]. split; [exact Hlt|].
  apply valid_parts in Hv as (Hy & Hm & Hd).
  destruct (Z.eq_dec (year now) 9999) as [|Hne]; [now left|right].
  unfold valid in Hv'.
  assert (Hdim : (d <=? days_in_month (year now + 1) m) = false).
  { destruct (d <=? days_in_month (year now + 1) m) eqn:H; [|reflexivity].
    rewrite !andb_false_iff, !Z.leb_gt in Hv'. lia. }
  apply Z.leb_gt in Hdim.
  destruct (month_cases m Hm) as [->|[->|[->|[->|[->|[->|[->|[->|[->|[->|[->| ->]]]]]]]]]]];
    unfold days_in_month in *; try lia.
  destruct (is_leap (year now)), (is_leap (year now + 1)); repeat split; lia.
Qed.

Lemma take_length n s : (String.length (Py.take n s) <= n)%nat.
Proof.
  revert s. induction n as [|n IH]; intros [|a s]; simpl; try lia.
  specialize (IH s). lia.
Qed.

Lemma valid_date_year now : valid_date now = true -> 1 <= year now <= 9999.
Proof. intros H. now apply valid_parts in H. Qed.

(** X3. Whatever string [beautify] stores for a string value is the
    value itself, "Today", "Tomorrow", or "<N> Days (<Wkd> <Day><Suffix>)"
    where N is neither 0 nor 1 and lies between -30 and 365, Wkd has at
    most three word characters, Day is one or two digits and Suffix is
    one of st, nd, rd, th.  A date more than 30 days in the past is never
    displayed. *)
Theorem beautify_str_output (now : date) (v out : string) :
  valid_date now = true ->
  beautify_str now (year now) v = Ok out ->
  out = v \/ out = "Today" \/ out = "Tomorrow" \/
  exists diff wkd day_ suffix,
    out = Py.str diff +:+ " Days (" +:+ wkd +:+ " " +:+ day_ +:+ suffix +:+ ")" /\
    -30 <= diff <= 365 /\ diff <> 0 /\ diff <> 1 /\
    (String.length wkd <= 3)%nat /\ Py.all_chars Py.is_word wkd = true /\
    day_digits day_ /\ In suffix ["st"; "nd"; "rd"; "th"].
Proof.
  intros Hnow H. unfold beautify_str in H.
  destruct (String.eqb (Py.lower (Py.strip v)) "today"); [inversion H; auto|].
  destruct (re_search council_re (Py.strip v)) as [g|] eqn:Hs; [|inversion H; auto].
  apply council_re_sound in Hs as (wd & d & suf & m & -> & Hshape).
  destruct Hshape as (pre & b1 & b2 & post & _ & Hwd & _ & Hd & Hsuf & _ & Hm).
  destruct (first_format (d +:+ " " +:+ Py.title m +:+ " " +:+ Py.str (year now))
                         [d_b_Y; d_B_Y]) as [[t|]|e] eqn:Hff; cbn [bind] in H;
    [|inversion H; auto|discriminate].
  apply first_format_target in Hff as (mm & dd & -> & Hv);
    auto using valid_date_year.
  destruct (year_rollover now (Date (year now) mm dd) (year now)) as [t|e] eqn:Hr;
    cbn [bind] in H; [|discriminate].
  pose proof (rollover_bounds now mm dd t Hnow Hv Hr) as Hb.
  injection H as <-. unfold display.
  destruct (Z.eqb_spec (days_between t now) 0); [auto|].
  destruct (Z.eqb_spec (days_between t now) 1); [auto|].
  right. right. right.
  exists (days_between t now), (Py.take 3 wd), d, suf.
  destruct Hwd as [_ Hwd].
  split; [reflexivity|]. split; [exact Hb|].
  repeat (split; [solve [auto using take_length, all_chars_take]|]). exact Hsuf.
Qed.

Lemma beautify_str_output_witness :
  "14 Days (Sat 3rd)" = "Saturday, 3rd JAN" \/ "14 Days (Sat 3rd)" = "Today" \/
  "14 Days (Sat 3rd)" = "Tomorrow" \/
  exists diff wkd day_ suffix,
    "14 Days (Sat 3rd)"
      = Py.str diff +:+ " Days (" +:+ wkd +:+ " " +:+ day_ +:+ suffix +:+ ")" /\
    -30 <= diff <= 365 /\ diff <> 0 /\ diff <> 1 /\
    (String.length wkd <= 3)%nat /\ Py.all_chars Py.is_word wkd = true /\
    day_digits day_ /\ In suffix ["st"; "nd"; "rd"; "th"].
Proof.
  apply (beautify_str_output (Date 2025 12 20) "Saturday, 3rd JAN" "14 Days (Sat 3rd)").
  - reflexivity.
  - vm_compute. reflexivity.
Defined.

Lemma lower_char_comma a : Ascii.eqb (Py.lower_char a) "," = Ascii.eqb a ",".
Proof. destruct a as [[] [] [] [] [] [] [] []]; vm_compute; reflexivity. Qed.

Lemma has_comma_lower s : has_char "," (Py.lower s) = has_char "," s.
Proof.
  induction s as [|a s IH]; [reflexivity|].
  unfold Py.lower in *. simpl. now rewrite IH, lower_char_comma.
Qed.

Lemma is_leap_next y : is_leap y = true -> is_leap (y + 1) = false.
Proof.
  unfold is_leap. intros H. apply andb_true_iff in H as [H _].
  apply Z.eqb_eq in H. apply andb_false_iff. left. apply Z.eqb_neq.
  intros H'. pose proof (Z.mod_pos_bound y 4). pose proof (Z.mod_pos_bound (y + 1) 4).
  pose proof (Z.div_mod y 4). pose proof (Z.div_mod (y + 1) 4). lia.
Qed.

(** A day of the year [y] that does not exist in the year after it: the
    year is 9999, or the day is the 29th of February. *)
Lemma next_year_cases y m d :
  valid y m d = true ->
  (valid (y + 1) m d = false <-> y = 9999 \/ (m = 2 /\ d = 29 /\ is_leap y = true)).
Proof.
  intros Hv. pose proof Hv as Hparts. apply valid_parts in Hparts as (Hy & Hm & Hd).
  unfold valid. split.
  - intros Hv'. destruct (Z.eq_dec y 9999) as [|Hne]; [now left|right].
    assert (Hdim : (d <=? days_in_month (y + 1) m) = false).
    { destruct (d <=? days_in_month (y + 1) m) eqn:H; [|reflexivity].
      rewrite !andb_false_iff, !Z.leb_gt in Hv'. lia. }
    apply Z.leb_gt in Hdim.
    destruct (month_cases m Hm) as [->|[->|[->|[->|[->|[->|[->|[->|[->|[->|[->| ->]]]]]]]]]]];
      unfold days_in_month in *; try lia.
    destruct (is_leap y), (is_leap (y + 1)); repeat split; lia.
  - intros [->|(-> & -> & Hleap)]; [reflexivity|].
    unfold days_in_month. rewrite (is_leap_next y Hleap).
    rewrite !andb_false_iff, !Z.leb_gt. lia.
Qed.

(** X4. For a real current date, the loop body of [beautify] raises
    exactly when the pattern of the council is found in the value, its
    day and month read as a date of the current year, that date is more
    than 30 days back, and it does not exist in the next year: it is the
    29th of February of a leap year, or the current year is 9999.  The
    exception is a [ValueError].  Nothing else in a string value makes
    [beautify] fall back to its input. *)
Theorem beautify_str_raises (now : date) (v : string) (e : exn) :
  valid_date now = true ->
  (beautify_str now (year now) v = Raise e <->
   e = ValueError /\
   exists weekday day_ suffix month_str m d,
     re_search council_re (Py.strip v) = Some [weekday; day_; suffix; month_str] /\
     first_format (day_ +:+ " " +:+ Py.title month_str +:+ " " +:+ Py.str (year now))
                  [d_b_Y; d_B_Y] = Ok (Some (Date (year now) m d)) /\
     days_between (Date (year now) m d) now < -30 /\
     (year now = 9999 \/ (m = 2 /\ d = 29 /\ is_leap (year now) = true))).
Proof.
  intros Hnow. split.
  - intros H. unfold beautify_str in H.
    destruct (String.eqb (Py.lower (Py.strip v)) "today"); [discriminate|].
    destruct (re_search council_re (Py.strip v)) as [g|] eqn:Hs; [|discriminate].
    destruct (council_re_sound _ _ Hs) as (wd & d & suf & m & -> & Hshape).
    destruct Hshape as (pre & b1 & b2 & post & _ & Hwd & _ & Hd & Hsuf & _ & Hm).
    destruct (first_format (d +:+ " " +:+ Py.title m +:+ " " +:+ Py.str (year now))
                           [d_b_Y; d_B_Y]) as [[t|]|e0] eqn:Hff; cbn [bind] in H;
      [|discriminate|now apply first_format_no_raise in Hff].
    destruct (first_format_target d m (year now) t Hd Hm (valid_date_year now Hnow) Hff)
      as (mm & dd & -> & Hv).
    destruct (year_rollover now (Date (year now) mm dd) (year now)) as [t|e0] eqn:Hr;
      cbn [bind] in H; [discriminate|].
    inversion H; subst e0.
    apply rollover_raises in Hr as (-> & Hlt & Hcase); [|exact Hv].
    split; [reflexivity|]. exists wd, d, suf, m, mm, dd. auto.
  - intros (-> & wd & dd & suf & ms & m & d & Hs & Hff & Hlt & Hcase).
    destruct (council_re_sound _ _ Hs) as (wd' & d' & suf' & m' & Hg & Hshape).
    injection Hg as <- <- <- <-.
    destruct Hshape as (pre & b1 & b2 & post & _ & Hwd & _ & Hd & Hsuf & _ & Hm).
    destruct (first_format_target dd ms (year now) _ Hd Hm (valid_date_year now Hnow) Hff)
      as (mm & d0 & Heq & Hv).
    injection Heq as <- <-.
    assert (Hnext : valid (year now + 1) m d = false).
    { apply (next_year_cases _ _ _ Hv). tauto. }
    unfold beautify_str.
    destruct (String.eqb_spec (Py.lower (Py.strip v)) "today") as [Heq|_].
    { exfalso.
      assert (Hc : has_char "," (Py.strip v) = false).
      { rewrite <- has_comma_lower, Heq. reflexivity. }
      rewrite (no_comma_no_match _ Hc) in Hs. discriminate Hs. }
    rewrite Hs, Hff. cbn [bind]. unfold year_rollover.
    apply Z.ltb_lt in Hlt. rewrite Hlt.
    unfold replace_year, make. cbn [Datetime.month Datetime.day]. rewrite Hnext.
    reflexivity.
Qed.

Lemma beautify_str_raises_witness :
  beautify_str (Date 2024 12 20) 2024 "Thursday, 29th FEB" = Raise ValueError.
Proof.
  apply (beautify_str_raises (Date 2024 12 20) "Thursday, 29th FEB" ValueError).
  - reflexivity.
  - split; [reflexivity|].
    exists "Thursday", "29", "th", "FEB", 2, 29.
    split; [vm_compute; reflexivity|]. split; [vm_compute; reflexivity|].
    split; [vm_compute; reflexivity|]. right. repeat split; reflexivity.
Defined.

(** What the loop body does with a token of the grammar whose day exists
    in the current year, whether the rollover step raises or not *)
Lemma beautify_str_token_any now weekday month mon d m :
  1000 <= year now <= 9999 ->
  In weekday weekdays -> In (month, mon, m) months ->
  valid (year now) m d = true ->
  first_format (Py.str d +:+ " " +:+ Py.title mon +:+ " " +:+ Py.str (year now))
               [d_b_Y; d_B_Y] = Ok (Some (Date (year now) m d)) /\
  beautify_str now (year now) (canonical_token weekday d mon)
    = bind (year_rollover now (Date (year now) m d) (year now))
           (fun t => Ok (display (days_between t now) (Py.take 3 weekday) (Py.str d)
                                 (suffix_rule d))).
Proof.
  intros Hy Hwd Hm Hvalid.
  destruct (valid_range _ _ _ Hvalid) as (_ & _ & Hd).
  assert (Hfirst : first_format
                     (Py.str d +:+ " " +:+ Py.title mon +:+ " " +:+ Py.str (year now))
                     [d_b_Y; d_B_Y] = Ok (Some (Date (year now) m d))).
  { rewrite (first_format_reads d month mon m (year now) Hd Hm Hy). now rewrite Hvalid. }
  split; [exact Hfirst|].
  pose proof every_token_parses as Htok.
  rewrite forallb_forall in Htok. specialize (Htok _ Hwd).
  rewrite forallb_forall in Htok. specialize (Htok _ (in_days_1_31 _ Hd)).
  rewrite forallb_forall in Htok. specialize (Htok _ Hm).
  unfold token_parses in Htok. cbn [fst snd] in Htok.
  apply andb_true_iff in Htok as [Hnot Hparse]. apply negb_true_iff in Hnot.
  unfold beautify_str. rewrite Hnot.
  destruct (re_search council_re (Py.strip (canonical_token weekday d mon)))
    as [[|w [|ds [|suf [|mo [|]]]]]|]; try discriminate Hparse.
  apply andb_true_iff in Hparse as [Hparse Hmo].
  apply andb_true_iff in Hparse as [Hparse Hsuf].
  apply andb_true_iff in Hparse as [Hw Hds].
  apply String.eqb_eq in Hw, Hds, Hsuf, Hmo. subst w ds suf mo.
  rewrite Hfirst. cbn [bind]. reflexivity.
Qed.

(** X5. Extractor and normalizer compose: a phrase of the page for a day
    that exists in the current year is formatted into a token from which
    the normalizer reads the same day and month.  When that day is more
    than 30 days back and does not exist in the next year (the 29th of
    February, or the current year is 9999), the loop body raises a
    [ValueError].  In every other case the display string is made from
    the difference in days after the rollover step, which lies between
    -30 and 365.  When the phrase names today's day and month the result
    is "Today", whatever weekday it names. *)
Theorem phrase_to_display (now : date) (weekday month mon : string) (m d : Z) :
  valid_date now = true -> 1000 <= year now ->
  In weekday weekdays -> In (month, mon, m) months ->
  valid (year now) m d = true ->
  exists token,
    format_collection_date (raw_phrase weekday d month) = Ok token /\
    first_format (Py.str d +:+ " " +:+ Py.title mon +:+ " " +:+ Py.str (year now))
                 [d_b_Y; d_B_Y] = Ok (Some (Date (year now) m d)) /\
    (days_between (Date (year now) m d) now < -30 /\
     (year now = 9999 \/ (m = 2 /\ d = 29)) ->
     beautify_str now (year now) token = Raise ValueError) /\
    (~ (days_between (Date (year now) m d) now < -30 /\
        (year now = 9999 \/ (m = 2 /\ d = 29))) ->
     exists t,
       year_rollover now (Date (year now) m d) (year now) = Ok t /\
       beautify_str now (year now) token
         = Ok (display (days_between t now) (Py.take 3 weekday) (Py.str d)
                       (suffix_rule d)) /\
       -30 <= days_between t now <= 365) /\
    (m = Datetime.month now -> d = day now ->
     beautify_str now (year now) token = Ok "Today").
Proof.
  intros Hnow Hy Hwd Hm Hv.
  assert (Hy' : 1000 <= year now <= 9999).
  { pose proof (valid_date_year now Hnow). lia. }
  destruct (valid_range _ _ _ Hv) as (_ & _ & Hd).
  pose proof every_phrase_formats as Hf.
  rewrite forallb_forall in Hf. specialize (Hf _ Hwd).
  rewrite forallb_forall in Hf. specialize (Hf _ (in_days_1_31 _ Hd)).
  rewrite forallb_forall in Hf. specialize (Hf _ Hm).
  unfold phrase_formats in Hf. cbn [fst snd] in Hf.
  destruct (format_collection_date (raw_phrase weekday d month)) as [token|] eqn:Hfmt;
    [|discriminate].
  apply String.eqb_eq in Hf. subst token.
  destruct (beautify_str_token_any now weekday month mon d m Hy' Hwd Hm Hv)
    as [Hfirst Hany].
  pose proof (next_year_cases _ _ _ Hv) as Hnext.
  eexists. split; [reflexivity|]. split; [exact Hfirst|]. split; [|split].
  - intros [Hlt Hcase]. rewrite Hany. unfold year_rollover.
    apply Z.ltb_lt in Hlt. rewrite Hlt.
    unfold replace_year, make. cbn [Datetime.month Datetime.day].
    assert (Hinv : valid (year now + 1) m d = false).
    { apply Hnext. destruct Hcase as [H9|[-> ->]]; [now left|right].
      repeat split. unfold valid, days_in_month in Hv.
      destruct (is_leap (year now)); [reflexivity|].
      rewrite !andb_true_iff, !Z.leb_le in Hv. lia. }
    rewrite Hinv. reflexivity.
  - intros Hnot.
    assert (Hok : days_between (Date (year now) m d) now < -30 ->
                  valid (year now + 1) m d = true).
    { intros Hlt. destruct (valid (year now + 1) m d) eqn:Hv'; [reflexivity|].
      exfalso. apply Hnot. split; [exact Hlt|].
      destruct (proj1 Hnext eq_refl) as [H9|(H2 & H29 & _)]; auto. }
    destruct (beautify_str_token now weekday month mon d m Hy' Hwd Hm Hv Hok)
      as (_ & Hroll & Hout).
    cbv zeta in Hroll, Hout.
    eexists. split; [exact Hroll|]. split; [exact Hout|].
    eapply rollover_bounds; eauto.
  - intros -> ->. rewrite Hany.
    assert (Heq : Date (year now) (Datetime.month now) (day now) = now) by now destruct now.
    assert (H0 : days_between now now = 0) by (unfold days_between; lia).
    unfold year_rollover. rewrite Heq, H0. change (0 <? -30) with false.
    cbn [bind]. now rewrite H0.
Qed.

Lemma phrase_to_display_witness :
  exists token,
    format_collection_date "Saturday 20 December" = Ok token /\
    beautify_str (Date 2025 12 20) 2025 token = Ok "Today".
Proof.
  destruct (phrase_to_display (Date 2025 12 20) "Saturday" "December" "DEC" 12 20)
    as (token & Hfmt & _ & _ & _ & Htoday).
  - reflexivity.
  - simpl. lia.
  - simpl. auto 10.
  - simpl. auto 20.
  - reflexivity.
  - exists token. split; [exact Hfmt|]. now apply Htoday.
Defined.

(** ** The normalizer applied twice *)

Lemma beautify_value_idempotent now Y v v' :
  beautify_value now Y v = Ok v' -> beautify_value now Y v' = Ok v'.
Proof.
  destruct v; simpl; intros H; try (injection H as <-; reflexivity).
  destruct (beautify_str now Y s) as [s'|e] eqn:Hs; [|discriminate].
  injection H as <-. simpl. now rewrite (beautify_str_idempotent now Y s s' Hs).
Qed.

(** Whether the loop ends normally does not depend on the heap. *)
Lemma beautify_loop_outcome now Y items :
  forall output output' (h h' : heap),
    (beautify_loop now Y items output h).1 = (beautify_loop now Y items output' h').1.
Proof.
  induction items as [|[key v] items IH]; intros output output' h h'; simpl;
    [reflexivity|].
  destruct (beautify_value now Y v); [apply IH|reflexivity].
Qed.

(** On entries the loop body leaves alone, the loop copies the
    dictionary. *)
Lemma beautify_loop_copies now Y output items :
  forall (h : heap) acc,
    Forall (fun kv => beautify_value now Y kv.2 = Ok kv.2) items ->
    h !! output = Some (Dict acc) ->
    NoDup (keys acc ++ keys items) ->
    exists h',
      beautify_loop now Y items output h = (Ok tt, h') /\
      h' !! output = Some (Dict (acc ++ items)).
Proof.
  induction items as [|[key v] items IH]; intros h acc Hall Hout Hnd; simpl.
  - exists h. rewrite app_nil_r. auto.
  - apply Forall_cons in Hall as [Hv Hall]. simpl in Hv. rewrite Hv.
    assert (Hfresh : ~ In key (keys acc)).
    { simpl in Hnd. apply NoDup_app in Hnd as (_ & Hdisj & _).
      intros Hin. apply (Hdisj key); [now apply list_elem_of_In|]. constructor. }
    destruct (IH (setitem output key v h) (acc ++ [(key, v)]) Hall) as (h' & Hloop & Hh').
    + rewrite <- (dict_set_fresh key v acc Hfresh). now apply setitem_dict.
    + unfold keys in *. rewrite map_app, <- app_assoc. exact Hnd.
    + exists h'. rewrite <- app_assoc in Hh'. auto.
Qed.

Lemma entries_fixed now Y items done :
  Forall2 (entry_done now Y) items done ->
  Forall (fun kv => beautify_value now Y kv.2 = Ok kv.2) done.
Proof.
  induction 1 as [|kv kv' items done [_ Hv] _ IH]; constructor; [|exact IH].
  eapply beautify_value_idempotent, Hv.
Qed.

(** X6. [beautify] is idempotent on records: called on its own result,
    with the same clock, it returns a record with the same entries,
    whether the first call converted the values or fell back to its
    input. *)
Theorem beautify_idempotent (now : date) (h : heap) (l : loc)
    (items : list (string * value)) :
  h !! l = Some (Dict items) ->
  NoDup (keys items) ->
  let r1 := beautify now (VRef l) h in
  let r2 := beautify now r1.1 r1.2 in
  exists out, as_dict r1.2 r1.1 = Some out /\ as_dict r2.2 r2.1 = Some out.
Proof.
  intros Hl Hnd r1 r2. subst r1 r2.
  pose proof (beautify_try_frame now (VRef l) h l _ Hl) as Hframe.
  destruct (beautify_try now (VRef l) h) as [[out_v|e] h'] eqn:Htry; cbn [fst snd] in *.
  - assert (Hb : beautify now (VRef l) h = (out_v, h'))
      by (unfold beautify; now rewrite Htry).
    rewrite !Hb. cbn [fst snd].
    destruct (beautify_try_ok now h h' l items out_v Hl Hnd Htry)
      as (l' & done & -> & _ & Hdone & Hall).
    exists done. simpl. rewrite Hdone. split; [reflexivity|].
    unfold beautify, beautify_try. simpl. rewrite Hdone.
    unfold alloc. cbn [fst snd].
    destruct (beautify_loop_copies now (year now) (fresh (dom h')) done
                (<[fresh (dom h') := Dict []]> h') [])
      as (h'' & Hloop & Hh'').
    + eapply entries_fixed, Hall.
    + apply lookup_insert_eq.
    + simpl. rewrite (entries_keys _ _ _ _ Hall). exact Hnd.
    + rewrite Hloop. simpl. now rewrite Hh''.
  - assert (Hb : beautify now (VRef l) h = (VRef l, h'))
      by (unfold beautify; now rewrite Htry).
    rewrite !Hb. cbn [fst snd].
    exists items. simpl. rewrite Hframe. split; [reflexivity|].
    pose proof (beautify_try_frame now (VRef l) h' l _ Hframe) as Hframe'.
    assert (Hraise : exists e', (beautify_try now (VRef l) h').1 = Raise e').
    { revert Htry. unfold beautify_try. simpl. rewrite Hl, Hframe.
      unfold alloc. cbn [fst snd].
      pose proof (beautify_loop_outcome now (year now) items
                    (fresh (dom h)) (fresh (dom h'))
                    (<[fresh (dom h) := Dict []]> h)
                    (<[fresh (dom h') := Dict []]> h')) as Hsame.
      destruct (beautify_loop now (year now) items (fresh (dom h))
                  (<[fresh (dom h) := Dict []]> h)) as [[u|e1] h1];
        destruct (beautify_loop now (year now) items (fresh (dom h'))
                    (<[fresh (dom h') := Dict []]> h')) as [[u'|e2] h2];
        simpl in *; try discriminate; eauto. }
    destruct Hraise as [e' He'].
    unfold beautify.
    destruct (beautify_try now (VRef l) h') as [[w|e2] h2]; simpl in *; [discriminate|].
    now rewrite Hframe'.
Qed.

Lemma beautify_idempotent_witness :
  exists out,
    as_dict (beautify (Date 2025 12 20) (VRef 0%nat) sample_heap).2
            (beautify (Date 2025 12 20) (VRef 0%nat) sample_heap).1 = Some out /\
    as_dict (beautify (Date 2025 12 20)
               (beautify (Date 2025 12 20) (VRef 0%nat) sample_heap).1
               (beautify (Date 2025 12 20) (VRef 0%nat) sample_heap).2).2
            (beautify (Date 2025 12 20)
               (beautify (Date 2025 12 20) (VRef 0%nat) sample_heap).1
               (beautify (Date 2025 12 20) (VRef 0%nat) sample_heap).2).1 = Some out.
Proof.
  apply (beautify_idempotent (Date 2025 12 20) sample_heap 0%nat sample_items).
  - vm_compute. reflexivity.
  - unfold sample_items, keys. simpl.
    repeat (apply NoDup_cons; split; [rewrite list_elem_of_In; simpl; intuition discriminate|]).
    apply NoDup_nil_2.
Defined.

(** ** Which block decides a category *)

Section DictGet.

Context {V : Type}.
Implicit Types d : list (string * V).



End DictGet.






(** ** What [main] shows *)

Lemma parse_to_json_record BeautifulSoup html :
  let r := parse_to_json BeautifulSoup html in
  r <> [] /\ NoDup (keys r) /\
  forall k, In k (keys r) -> k = "Error" \/ In k categories.
Proof.
  assert (Herr : forall code : string,
            [("Error", code)] <> [] /\ NoDup (keys [("Error", code)]) /\
            forall k, In k (keys [("Error", code)]) -> k = "Error" \/ In k categories).
  { intros code. split; [discriminate|]. split; [apply NoDup_singleton|].
    intros k [<-|[]]. now left. }
  simpl.
  destruct (parse_to_json_cases BeautifulSoup html)
    as [(e & _ & ->)|(soup & _ & [[_ ->]|[(_ & _ & ->)|(r & Hr & Hne & Hnd & Hk)]])];
    try apply Herr.
  rewrite Hr. split; [exact Hne|]. split; [exact Hnd|].
  intros k Hin. right. destruct (proj1 (Hk k) Hin) as (blk & _ & Hblk).
  eapply entry_keys_categories, Hblk.
Qed.

Lemma keys_str_items d : keys (str_items d) = keys d.
Proof. unfold keys, str_items. rewrite map_map. reflexivity. Qed.

Lemma str_items_values d k v : In (k, v) (str_items d) -> exists s, v = VStr s.
Proof.
  unfold str_items. intros H. apply in_map_iff in H as ([k0 s] & H & _).
  inversion H. eauto.
Qed.

Lemma entries_values now Y items done :
  Forall2 (entry_done now Y) items done ->
  (forall k v, In (k, v) items -> exists s, v = VStr s) ->
  forall k v, In (k, v) done -> exists s, v = VStr s.
Proof.
  induction 1 as [|[k0 v0] [k1 v1] items done [Hk Hv] _ IH]; intros Hstr k v Hin;
    [destruct Hin|].
  destruct Hin as [Heq|Hin].
  - inversion Heq; subst. simpl in *.
    destruct (Hstr k0 v0 (or_introl eq_refl)) as [s ->]. simpl in Hv.
    destruct (beautify_str now Y s) as [s'|e]; [|discriminate].
    injection Hv as <-. eauto.
  - refine (IH _ k v Hin). intros k' v' H'. apply (Hstr k' v'). now right.
Qed.

(** X8. Every run of [main] ends with exactly one call of [show_result],
    after the scraping stage alone or after all three stages, and what
    it shows is always a dictionary that is not empty, has no key twice,
    has only the keys "Error", "Rubbish", "Recycling" and "Food", and has
    only strings as values.  After the three stages the record shown has
    the keys of the extractor's record, in its order, and is either that
    record (the normalizer fell back) or that record with the loop body
    of [beautify] applied to every value. *)
Theorem main_always_shows (Browser : Type)
    (playwright : call -> Browser -> result string * Browser)
    (BeautifulSoup : string -> result node) (now : date) (b : Browser) :
  exists stages shown,
    main Browser playwright BeautifulSoup now b = stages ++ [ShowResult (Some shown)] /\
    shown <> [] /\ NoDup (keys shown) /\
    (forall k, In k (keys shown) -> k = "Error" \/ In k categories) /\
    (forall k v, In (k, v) shown -> exists s, v = VStr s) /\
    (stages = [Scraping] \/
     stages = [Scraping; Parsing; Beautifying] /\
     exists html b',
       scrape_url_get_html Browser playwright URL POSTCODE ADDRESS_VALUE b = (Str html, b') /\
       keys shown = keys (parse_to_json BeautifulSoup html) /\
       (shown = str_items (parse_to_json BeautifulSoup html) \/
        Forall2 (entry_done now (year now))
                (str_items (parse_to_json BeautifulSoup html)) shown)).
Proof.
  unfold main.
  destruct (scrape_url_get_html Browser playwright URL POSTCODE ADDRESS_VALUE b)
    as [[html|d] b'] eqn:Hscrape.
  - destruct (parse_to_json_record BeautifulSoup html) as (Hne & Hnd & Hk).
    set (r := parse_to_json BeautifulSoup html) in *.
    unfold alloc. cbn [fst snd].
    set (l := fresh (dom (∅ : heap))).
    set (h := <[l := Dict (str_items r)]> (∅ : heap)).
    assert (Hl : h !! l = Some (Dict (str_items r))) by apply lookup_insert_eq.
    assert (Hnd' : NoDup (keys (str_items r))) by now rewrite keys_str_items.
    pose proof (beautify_try_frame now (VRef l) h l _ Hl) as Hframe.
    unfold beautify.
    destruct (beautify_try now (VRef l) h) as [[out_v|e] h'] eqn:Htry; cbn [fst snd] in *.
    + destruct (beautify_try_ok now h h' l (str_items r) out_v Hl Hnd' Htry)
        as (l' & done & -> & _ & Hdone & Hall).
      pose proof (entries_keys _ _ _ _ Hall) as Hkeys. rewrite keys_str_items in Hkeys.
      exists [Scraping; Parsing; Beautifying], done. simpl. rewrite Hdone.
      split; [reflexivity|]. split.
      { intros ->. inversion Hall as [Hnil|]. destruct r; [congruence|discriminate]. }
      split; [now rewrite Hkeys|]. split; [now rewrite Hkeys|]. split.
      { eapply entries_values; [exact Hall|apply str_items_values]. }
      right. split; [reflexivity|]. exists html, b'. auto.
    + exists [Scraping; Parsing; Beautifying], (str_items r). simpl. rewrite Hframe.
      split; [reflexivity|]. split.
      { destruct r; [congruence|discriminate]. }
      split; [exact Hnd'|]. split; [now rewrite keys_str_items|].
      split; [apply str_items_values|].
      right. split; [reflexivity|]. exists html, b'.
      split; [reflexivity|]. split; [apply keys_str_items|now left].
  - exists [Scraping], (str_items d). split; [reflexivity|].
    assert (Hd : exists code, d = [("Error", code)]).
    { unfold scrape_url_get_html in Hscrape.
      destruct (scrape_try Browser playwright URL POSTCODE ADDRESS_VALUE b) as [[html|e] b0].
      - discriminate.
      - destruct e; inversion Hscrape; eauto. }
    destruct Hd as [code ->]. simpl.
    split; [discriminate|]. split; [apply NoDup_singleton|].
    split; [intros k [<-|[]]; now left|].
    split; [|now left].
    intros k v [H|[]]. inversion H. eauto.
Qed.

(** ** The display layer *)

Section TruncateFacts.

Variable textlength : Output.font -> string -> QArith_base.Q.

Lemma app_snoc s ch t : (s +:+ String ch "") +:+ t = s +:+ String ch t.
Proof. now rewrite app_assoc_s, app_cons, app_empty_l. Qed.

Lemma truncate_loop_spec font_ max_width rest :
  forall out,
  exists taken rest',
    rest = taken +:+ rest' /\
    Output.truncate_loop textlength font_ max_width rest out = out +:+ taken /\
    (taken <> "" ->
     Output.le_int (textlength font_ ((out +:+ taken) +:+ "...")) max_width = true) /\
    (forall ch r, rest' = String ch r ->
     Output.gt_int (textlength font_ ((out +:+ taken) +:+ String ch "" +:+ "..."))
                   max_width = true).
Proof.
  induction rest as [|ch rest IH]; intros out.
  - exists "", "". rewrite !app_empty_r.
    split; [reflexivity|]. split; [reflexivity|].
    split; [intros H; congruence|intros ch r H; discriminate H].
  - cbn [Output.truncate_loop].
    destruct (Output.gt_int (textlength font_ (out +:+ String ch "" +:+ "...")) max_width)
      eqn:Hgt.
    + exists "", (String ch rest). rewrite !app_empty_r.
      split; [reflexivity|]. split; [reflexivity|].
      split; [intros H; congruence|]. intros ch' r H. now inversion H; subst.
    + destruct (IH (out +:+ String ch "")) as (taken & rest' & -> & Hloop & Hfit & Hwide).
      exists (String ch taken), rest'. rewrite Hloop, !app_snoc in *.
      repeat split; auto.
      intros _. destruct taken as [|a taken]; [|apply Hfit; discriminate].
      unfold Output.gt_int in Hgt. apply negb_false_iff in Hgt.
      rewrite app_assoc_s. exact Hgt.
Qed.

(** X9. [_truncate] returns the text when it fits.  Otherwise it returns
    a prefix of the text followed by "...": when the prefix is not empty
    the result fits into the width, and the prefix stops at the first
    character with which it would no longer fit.  (With an empty prefix
    the result is "..." alone, whatever its length.) *)
Theorem truncate_spec (text_ : string) (font_ : Output.font) (max_width : Z) :
  let out := Output._truncate textlength text_ font_ max_width in
  (Output.le_int (textlength font_ text_) max_width = true -> out = text_) /\
  (Output.le_int (textlength font_ text_) max_width = false ->
   exists kept rest,
     text_ = kept +:+ rest /\ out = kept +:+ "..." /\
     (kept <> "" -> Output.le_int (textlength font_ out) max_width = true) /\
     (forall ch r, rest = String ch r ->
      Output.gt_int (textlength font_ (kept +:+ String ch "" +:+ "...")) max_width = true)).
Proof.
  unfold Output._truncate. split; intros H; rewrite H; [reflexivity|].
  destruct (truncate_loop_spec font_ max_width text_ "")
    as (kept & rest & Htext & Hloop & Hfit & Hwide).
  rewrite Hloop, !app_empty_l in *. exists kept, rest. auto.
Qed.

End TruncateFacts.

(** A font in which every character is seven pixels wide *)
Lemma truncate_spec_witness :
  Output._truncate
    (fun _ s => QArith_base.inject_Z (7 * Z.of_nat (String.length s)))
    "Tomorrow" Output.DefaultFont 152 = "Tomorrow".
Proof.
  apply (truncate_spec
           (fun _ s => QArith_base.inject_Z (7 * Z.of_nat (String.length s)))
           "Tomorrow" Output.DefaultFont 152).
  vm_compute. reflexivity.
Defined.

Section FontFacts.

Variable path_exists : string -> bool.
Variable truetype_loads : string -> Z -> bool.

Lemma load_fonts_from_find ps :
  Output.load_fonts_from path_exists truetype_loads ps =
  match List.find (Output.usable path_exists truetype_loads) ps with
  | Some p => (Output.TrueType p Output.HEADER_SIZE, Output.TrueType p Output.ROW_SIZE,
               Output.TrueType p Output.FOOTER_SIZE)
  | None => (Output.DefaultFont, Output.DefaultFont, Output.DefaultFont)
  end.
Proof.
  induction ps as [|p ps IH]; [reflexivity|].
  cbn [Output.load_fonts_from List.find]. unfold Output.usable at 1, Output._ttf.
  destruct (path_exists p); [|exact IH].
  destruct (truetype_loads p Output.HEADER_SIZE), (truetype_loads p Output.ROW_SIZE),
    (truetype_loads p Output.FOOTER_SIZE); simpl; try exact IH; reflexivity.
Qed.

(** X10. The three fonts of the display always come from one source:
    either all three are the default font, which happens exactly when no
    candidate file exists and loads at all three sizes, or all three are
    loaded, at sizes 17, 14 and 10, from the first candidate file that
    does. *)
Theorem load_fonts_one_source :
  let usable := Output.usable path_exists truetype_loads in
  let fonts := Output._load_fonts path_exists truetype_loads in
  (fonts = (Output.DefaultFont, Output.DefaultFont, Output.DefaultFont) /\
   forall p, In p Output.candidates -> usable p = false) \/
  (exists before p after,
     Output.candidates = before ++ p :: after /\
     (forall q, In q before -> usable q = false) /\ usable p = true /\
     fonts = (Output.TrueType p 17, Output.TrueType p 14, Output.TrueType p 10)).
Proof.
  intros usable fonts. subst fonts. unfold Output._load_fonts.
  rewrite load_fonts_from_find. fold usable.
  generalize Output.candidates. intros ps.
  induction ps as [|q ps IH]; simpl.
  - left. split; [reflexivity|]. intros p [].
  - destruct (usable q) eqn:Hq.
    + right. exists [], q, ps. repeat split; auto. intros p [].
    + destruct IH as [[Hd Hnone]|(before & p & after & -> & Hb & Hp & Hf)].
      * left. split; [exact Hd|]. intros p [<-|Hin]; auto.
      * right. exists (q :: before), p, after. repeat split; auto.
        intros p' [<-|Hin]; auto.
Qed.

End FontFacts.

Section ShowFacts.

Variable m : Output.module_globals.
Variable textlength : Output.font -> string -> QArith_base.Q.
Variable Panel : Type.
Variable driver : Output.epd_call -> Panel -> result unit * Panel.
Variable has_FULL_UPDATE has_PART_UPDATE has_PARTIAL_UPDATE has_displayPartial : bool.
Variable fsub : QArith_base.Q -> QArith_base.Q -> QArith_base.Q.

Local Abbreviation push :=
  (Output.push Panel driver has_FULL_UPDATE has_PART_UPDATE has_PARTIAL_UPDATE
               has_displayPartial fsub).
Local Abbreviation show_result :=
  (Output.show_result m textlength Panel driver has_FULL_UPDATE has_PART_UPDATE
                      has_PARTIAL_UPDATE has_displayPartial fsub).
Local Abbreviation show_all :=
  (Output.show_all m textlength Panel driver has_FULL_UPDATE has_PART_UPDATE
                   has_PARTIAL_UPDATE has_displayPartial fsub).
Local Abbreviation panel_script :=
  (Output.panel_script has_FULL_UPDATE has_PART_UPDATE has_PARTIAL_UPDATE
                       has_displayPartial).
Local Abbreviation calls := (Output.calls Panel driver).

(** The [try] block plays the calls of the update in order, and the
    counters are set once the image is displayed. *)
Lemma push_script image now g p :
  let full := Output.do_full fsub g now in
  let script := panel_script full image in
  let r := push image now g p in
  r.1.1 = (calls script p).1 /\ r.2 = (calls script p).2 /\
  Output._last_refresh_time r.1.2 = Output._last_refresh_time g /\
  (Output._last_full_refresh r.1.2, Output._partial_count r.1.2) =
    match (calls (firstn 4 script) p).1 with
    | Ok _ =>
        if full then (Some now, 0)
        else (Output._last_full_refresh g, Output._partial_count g + 1)
    | Raise _ => (Output._last_full_refresh g, Output._partial_count g)
    end.
Proof.
  unfold Output.push, Output.panel_script.
  destruct (Output.do_full fsub g now); simpl;
    repeat match goal with
           | |- context [driver ?c ?q] => destruct (driver c q) as [[[]|?] ?]; simpl
           end; auto.
Qed.

Lemma push_count image now g p :
  0 <= Output._partial_count g <= Output.PARTIAL_REFRESH_LIMIT ->
  0 <= Output._partial_count (push image now g p).1.2 <= Output.PARTIAL_REFRESH_LIMIT.
Proof.
  intros Hg. destruct (push_script image now g p) as (_ & _ & _ & Hc).
  assert (Hlim : Output.do_full fsub g now = false ->
                 Output._partial_count g < Output.PARTIAL_REFRESH_LIMIT).
  { unfold Output.do_full. destruct (Output._last_full_refresh g); [|discriminate].
    intros H. apply orb_false_iff in H as [_ H]. now apply Z.leb_gt in H. }
  destruct (calls _ p).1, (Output.do_full fsub g now);
    injection Hc as _ ->; unfold Output.PARTIAL_REFRESH_LIMIT in *; lia.
Qed.

Lemma show_result_count result_ postcode version updated_str now ip g p :
  0 <= Output._partial_count g <= Output.PARTIAL_REFRESH_LIMIT ->
  0 <= Output._partial_count
         (show_result result_ postcode version updated_str now ip g p).1.2
    <= Output.PARTIAL_REFRESH_LIMIT.
Proof.
  intros Hg. unfold Output.show_result.
  destruct (Output.rate_limited fsub g now); [exact Hg|].
  destruct (negb (Output.EPD_AVAILABLE m) || negb (Output.epd2in13_V4 m)); [exact Hg|].
  match goal with
  | |- context [Output.push _ _ _ _ _ _ _ ?image now ?g1 p] =>
      pose proof (push_count image now g1 p Hg) as Hpush;
      destruct (push image now g1 p) as [[[u|e] g2] p2]
  end; exact Hpush.
Qed.

(** X11. The count of partial refreshes stays between 0 and the limit of
    50 over any sequence of calls of [show_result], whatever the panel
    answers and whatever the clock reads: once the count has reached the
    limit, the next update that reaches the panel is a full one. *)
Theorem partial_count_bounded (rs : list Output.request) (g : Output.refresh_state)
    (p : Panel) :
  0 <= Output._partial_count g <= Output.PARTIAL_REFRESH_LIMIT ->
  0 <= Output._partial_count (show_all rs g p).1 <= Output.PARTIAL_REFRESH_LIMIT.
Proof.
  revert g p. induction rs as [|r rs IH]; intros g p Hg; [exact Hg|].
  cbn [Output.show_all].
  pose proof (show_result_count (Output.req_result r) (Output.req_postcode r)
                (Output.req_version r) (Output.req_updated r) (Output.req_now r)
                (Output.req_ip r) g p Hg) as Hstep.
  destruct (show_result (Output.req_result r) (Output.req_postcode r)
              (Output.req_version r) (Output.req_updated r) (Output.req_now r)
              (Output.req_ip r) g p) as [[[o printed] g'] p'].
  apply IH. exact Hstep.
Qed.



(** Every call that is not skipped stamps the time of the refresh. *)
Lemma show_result_stamps result_ postcode version updated_str now ip g p :
  Output.rate_limited fsub g now = false ->
  Output._last_refresh_time
    (show_result result_ postcode version updated_str now ip g p).1.2 = Some now.
Proof.
  intros Hr. unfold Output.show_result. rewrite Hr.
  destruct (negb (Output.EPD_AVAILABLE m) || negb (Output.epd2in13_V4 m)); [reflexivity|].
  match goal with
  | |- context [Output.push _ _ _ _ _ _ _ ?image now ?g1 p] =>
      destruct (push_script image now g1 p) as (_ & _ & H3 & _);
      destruct (push image now g1 p) as [[[u|e] g2] p2]
  end; exact H3.
Qed.



(** X13. The rate limit: when a call that was not skipped read the clock
    at [now], and [now] is not zero, a call that reads the clock less
    than two seconds later returns at once: it prints nothing, leaves
    the state as it is and makes no call on the panel.  This holds
    whether the first call returned or raised. *)
Theorem show_result_rate_limit result1 postcode1 version1 updated1 now ip1
    result2 postcode2 version2 updated2 now' ip2 g p :
  Output.rate_limited fsub g now = false ->
  QArith_base.Qeq_bool now (QArith_base.inject_Z 0) = false ->
  Output.lt_int (fsub now' now) Output.MIN_REFRESH_SECONDS = true ->
  let first := show_result result1 postcode1 version1 updated1 now ip1 g p in
  show_result result2 postcode2 version2 updated2 now' ip2 first.1.2 first.2 =
    (Output.Returns, [], first.1.2, first.2).
Proof.
  intros Hr Hz Hlt first.
  pose proof (show_result_stamps result1 postcode1 version1 updated1 now ip1 g p Hr) as Ht.
  fold first in Ht. unfold Output.show_result at 1. unfold Output.rate_limited.
  rewrite Ht, Hz, Hlt. reflexivity.
Qed.


End ShowFacts.

Lemma partial_count_bounded_witness :
  0 <= Output._partial_count
         (Output.show_all sample_module seven_pixels (list Output.epd_call)
            recording_panel true true false true QArith_base.Qminus
            [sample_request 100; sample_request 101; sample_request 200]
            Output.initial_state []).1
    <= Output.PARTIAL_REFRESH_LIMIT.
Proof.
  apply (partial_count_bounded sample_module seven_pixels (list Output.epd_call)
           recording_panel true true false true QArith_base.Qminus).
  unfold Output.PARTIAL_REFRESH_LIMIT. simpl. lia.
Defined.


Lemma show_result_rate_limit_witness :
  let first :=
    Output.show_result sample_module seven_pixels (list Output.epd_call)
      recording_panel true true false true QArith_base.Qminus
      sample_result "RG7 " "1-0" "04 Nov     07:00" (QArith_base.inject_Z 100)
      "192.168.0.7" Output.initial_state [] in
  Output.show_result sample_module seven_pixels (list Output.epd_call)
    recording_panel true true false true QArith_base.Qminus
    sample_result "RG7 " "1-0" "04 Nov     07:00" (QArith_base.inject_Z 101)
    "192.168.0.7" first.1.2 first.2 = (Output.Returns, [], first.1.2, first.2).
Proof.
  apply (show_result_rate_limit sample_module seven_pixels (list Output.epd_call)
           recording_panel true true false true QArith_base.Qminus);
    vm_compute; reflexivity.
Defined.


Section RenderFacts.

Variable m : Output.module_globals.
Variable textlength : Output.font -> string -> QArith_base.Q.




End RenderFacts.

Lemma get_or_truthy d k1 k2 default :
  default <> "" -> Output.truthy (Output.get_or d k1 k2 default) = true.
Proof.
  intros Hd. unfold Output.get_or.
  destruct (dict_get k1 d) as [[|a v]|]; try reflexivity;
    (destruct (dict_get k2 d) as [[|b w]|]; try reflexivity;
     (destruct default; [congruence|reflexivity])).
Qed.

(** X16. For a dictionary the terminal and the panel show the same
    thing: the lines printed between the title and the footer are, one
    for one, the rows of the panel that have a label, each as its label,
    blanks and its value.  (For a result that is no dictionary they
    differ: the terminal says "Failed to fetch/parse", the panel "No
    data".) *)
Theorem terminal_matches_panel (d : list (string * string)) :
  Forall2 Output.same_text
    (List.filter Output.labelled (Output.rows (Output.AsDict d)))
    (Output.terminal_body (Output.AsDict d)) /\
  forall s,
    ~ Forall2 Output.same_text
        (List.filter Output.labelled (Output.rows (Output.AsStr s)))
        (Output.terminal_body (Output.AsStr s)).
Proof.
  split.
  - unfold Output.rows, Output.terminal_body.
    destruct (Output.is_error (Output.AsDict d)) eqn:He; cbn [negb].
    + assert (Ht : Output.truthy (Output.error_text (Output.AsDict d)) = true).
      { unfold Output.error_text. unfold Output.is_error in He. rewrite He.
        now apply get_or_truthy. }
      rewrite Ht. unfold Output.labelled. cbn [List.filter fst String.eqb negb].
      constructor; [|constructor]. now exists " ".
    + unfold Output.labelled. cbn [List.filter fst String.eqb negb Ascii.eqb Bool.eqb].
      repeat constructor.
      * now exists "   ".
      * now exists " ".
      * now exists "      ".
  - intros s H. unfold Output.rows, Output.terminal_body, Output.labelled in H.
    cbn in H. inversion H as [|row line rs ls (pad & Hline & Hpad) Hrest]; subst.
    cbv [String.append fst snd] in Hline. injection Hline as Hline.
    destruct pad as [|c1 pad]; [discriminate Hline|].
    injection Hline as <- Hline.
    destruct pad as [|c2 pad]; [discriminate Hline|].
    injection Hline as <- Hline. discriminate Hpad.
Qed.
